(** * CipherWhisp backend: the blob-indirection storage layer

    A shallow embedding of [src/backend/main.py] (the FastAPI service that
    keeps form metadata in two process-wide dictionaries and stores every
    encrypted submission as a Walrus blob), followed by the properties the
    specification states about it.

    Conventions of the embedding:
    - a Python [str] is the list of its Unicode code points ([pystr]);
      [bytes] is [list byte];
    - the value a response body parses to ([resp.json()]) is a [json] tree;
      a Python [dict] is a [gmap] keyed by [pystr];
    - the two module-level dictionaries, the outside world (network, Walrus
      services, entropy pool) and the list of HTTP requests sent so far form
      the [state]; a handler is a function [state -> result A * state];
      a raised exception keeps the state reached when it was raised;
    - the [print] calls that log a failure before the [raise] write to the
      standard output, which belongs to the world: the write can itself
      raise, and then that exception leaves the helper instead. *)

From stdpp Require Import gmap strings list fin_maps.
From Stdlib Require Import ZArith Lia.
From Stdlib.Strings Require Import Byte.

Set Warnings "-register-all".
#[local] Open Scope Z_scope.

(* ===================================================================== *)
(** ** Python values *)
(* ===================================================================== *)

(** A Python [str]: the sequence of its code points. *)
Abbreviation pystr := (list Z).

(** An ASCII literal of the source, as a Python [str]. *)
Definition py (s : string) : pystr :=
  (fun a => Z.of_N (Ascii.N_of_ascii a)) <$> String.list_ascii_of_string s.

(** What [json.loads] can produce.  A float is kept as the token that
    spelled it: the service never computes with numbers. *)
Inductive json :=
| JNull
| JBool (b : bool)
| JInt (n : Z)
| JFloat (lit : pystr)
| JStr (s : pystr)
| JList (l : list json)
| JDict (m : gmap pystr json).

(** The exceptions that can leave a handler. *)
Inductive exn :=
| HTTPException (status_code : Z) (detail : string)
| KeyError (key : pystr)
| TypeError
| UnicodeEncodeError
| UnicodeDecodeError
| RecursionError
| StdoutError (cls : string).

(** What a [print] can raise: [UnicodeEncodeError] when the stream cannot
    encode the text (a lone surrogate, a character outside the encoding of
    the terminal), or an error of the stream itself, kept by the name of
    its class ([BrokenPipeError], ...). *)
Inductive print_exn :=
| PrintUnicodeEncodeError
| PrintStreamError (cls : string).

Definition exn_of_print (e : print_exn) : exn :=
  match e with
  | PrintUnicodeEncodeError => UnicodeEncodeError
  | PrintStreamError cls => StdoutError cls
  end.

Inductive result (A : Type) :=
| Ok (a : A)
| Raise (e : exn).
Arguments Ok {A} a.
Arguments Raise {A} e.

(** [needle in hay] for two strings: substring search. *)
Fixpoint starts_with (needle hay : pystr) : bool :=
  match needle, hay with
  | [], _ => true
  | _ :: _, [] => false
  | a :: needle', b :: hay' => bool_decide (a = b) && starts_with needle' hay'
  end.

Fixpoint is_substring (needle hay : pystr) : bool :=
  starts_with needle hay ||
  match hay with
  | [] => false
  | _ :: hay' => is_substring needle hay'
  end.

Definition is_str (key : pystr) (v : json) : bool :=
  match v with
  | JStr s => bool_decide (s = key)
  | _ => false
  end.

(** [key in j] for a string literal [key]: key membership on a dict,
    element membership on a list, substring search on a string, and
    [TypeError] on [None], booleans and numbers. *)
Definition py_in (key : pystr) (j : json) : result bool :=
  match j with
  | JDict m => Ok (match m !! key with Some _ => true | None => false end)
  | JList l => Ok (existsb (is_str key) l)
  | JStr s => Ok (is_substring key s)
  | JNull | JBool _ | JInt _ | JFloat _ => Raise TypeError
  end.

(** [j[key]] for a string literal [key]: [KeyError] on a dict without the
    key, [TypeError] on everything that is not a dict. *)
Definition py_getitem (j : json) (key : pystr) : result json :=
  match j with
  | JDict m =>
      match m !! key with
      | Some v => Ok v
      | None => Raise (KeyError key)
      end
  | _ => Raise TypeError
  end.

(* ===================================================================== *)
(** ** Bytes and the UTF-8 codec ([str.encode], [bytes.decode]) *)
(* ===================================================================== *)

Definition byte_val (b : byte) : Z := Z.of_N (Byte.to_N b).

Definition mk_byte (z : Z) : byte :=
  match Byte.of_N (Z.to_N z) with
  | Some b => b
  | None => x00
  end.

Definition is_surrogate (c : Z) : bool := (0xD800 <=? c) && (c <=? 0xDFFF).

(** One code point to its UTF-8 bytes; [None] is [UnicodeEncodeError]
    (a lone surrogate).  Numbers outside the Unicode range are no code
    points and are rejected as well. *)
Definition encode_char (c : Z) : option (list byte) :=
  if c <? 0 then None
  else if c <? 0x80 then Some [mk_byte c]
  else if c <? 0x800 then
    Some [mk_byte (0xC0 + c / 64); mk_byte (0x80 + c mod 64)]
  else if c <? 0x10000 then
    if is_surrogate c then None
    else Some [mk_byte (0xE0 + c / 4096);
               mk_byte (0x80 + (c / 64) mod 64);
               mk_byte (0x80 + c mod 64)]
  else if c <? 0x110000 then
    Some [mk_byte (0xF0 + c / 262144);
          mk_byte (0x80 + (c / 4096) mod 64);
          mk_byte (0x80 + (c / 64) mod 64);
          mk_byte (0x80 + c mod 64)]
  else None.

Fixpoint encode_utf8 (s : pystr) : option (list byte) :=
  match s with
  | [] => Some []
  | c :: s' =>
      match encode_char c, encode_utf8 s' with
      | Some b, Some bs => Some (b ++ bs)
      | _, _ => None
      end
  end.

Definition is_cont (x : Z) : bool := (0x80 <=? x) && (x <=? 0xBF).

(** Strict UTF-8 decoding; [None] is [UnicodeDecodeError] (a stray or
    missing continuation byte, an overlong form, a surrogate, a value
    above U+10FFFF). *)
Fixpoint decode_utf8 (bs : list byte) : option pystr :=
  match bs with
  | [] => Some []
  | b0 :: r0 =>
      let x0 := byte_val b0 in
      if x0 <? 0x80 then cons x0 <$> decode_utf8 r0
      else if x0 <? 0xC2 then None
      else if x0 <? 0xE0 then
        match r0 with
        | b1 :: r1 =>
            let x1 := byte_val b1 in
            if is_cont x1
            then cons ((x0 - 0xC0) * 64 + (x1 - 0x80)) <$> decode_utf8 r1
            else None
        | _ => None
        end
      else if x0 <? 0xF0 then
        match r0 with
        | b1 :: b2 :: r2 =>
            let x1 := byte_val b1 in
            let x2 := byte_val b2 in
            let c := (x0 - 0xE0) * 4096 + (x1 - 0x80) * 64 + (x2 - 0x80) in
            if is_cont x1 && is_cont x2 && (0x800 <=? c) && negb (is_surrogate c)
            then cons c <$> decode_utf8 r2
            else None
        | _ => None
        end
      else if x0 <? 0xF5 then
        match r0 with
        | b1 :: b2 :: b3 :: r3 =>
            let x1 := byte_val b1 in
            let x2 := byte_val b2 in
            let x3 := byte_val b3 in
            let c := (x0 - 0xF0) * 262144 + (x1 - 0x80) * 4096
                     + (x2 - 0x80) * 64 + (x3 - 0x80) in
            if is_cont x1 && is_cont x2 && is_cont x3
               && (0x10000 <=? c) && (c <? 0x110000)
            then cons c <$> decode_utf8 r3
            else None
        | _ => None
        end
      else None
  end.

(** [binascii.hexlify], as text. *)
Definition hex_digit (n : Z) : Z := if n <? 10 then 48 + n else 87 + n.

Definition hexlify (bs : list byte) : pystr :=
  flat_map (fun b => [hex_digit (byte_val b / 16); hex_digit (byte_val b mod 16)]) bs.

(* ===================================================================== *)
(** ** The platform the service runs on *)
(* ===================================================================== *)

(** What [resp.json()] does: return the parsed body, raise a [ValueError]
    (the body is not JSON), or raise [RecursionError] (the body is JSON
    nested deeper than the interpreter recurses). *)
Inductive json_outcome :=
| Parsed (j : json)
| NotJSON
| TooDeep.

(** A [requests.Response], reduced to what the service reads: the status,
    the raw body ([resp.content]) and what [resp.json()] does. *)
Record response := MkResponse {
  status_code : Z;
  content : list byte;
  json_call : json_outcome;
}.

(** The value [resp.json()] returns, if it returns. *)
Definition json_body (resp : response) : option json :=
  match json_call resp with
  | Parsed j => Some j
  | NotJSON | TooDeep => None
  end.

(** A response whose body parses to the given value, or is not JSON. *)
Definition Response (status_code : Z) (content : list byte)
    (body : option json) : response :=
  MkResponse status_code content
    (match body with Some j => Parsed j | None => NotJSON end).

(** What [requests.put] / [requests.get] can do: raise a
    [requests.RequestException] (connection refused, time-out after the
    30 seconds given, DNS failure) or return a response. *)
Inductive outcome :=
| RequestException
| Returned (resp : response).

(** The six [print] calls of the source, by the message they start with
    and the values they show. *)
Inductive log_line :=
| WalrusUploadNetworkError
| WalrusUploadError (resp : response)
| WalrusUploadNonJSON (resp : response)
| WalrusUploadMissingBlobId (j : json)
| WalrusFetchNetworkError
| WalrusFetchError (resp : response).

(** Everything outside the process.  [World] is the state of the network,
    of the Walrus publisher and aggregator, of the entropy pool behind
    [secrets] and of the standard output; the service only observes it
    through the four calls.  [print_line] writes one line and says what
    the write raised, if it raised.  [py_str] is the builtin [str()] on
    values that are not strings, which an f-string applies to the field it
    formats. *)
Class Platform := {
  World : Type;
  requests_put : pystr -> list byte -> World -> outcome * World;
  requests_get : pystr -> World -> outcome * World;
  token_bytes : nat -> World -> list byte * World;
  print_line : log_line -> World -> option print_exn * World;
  py_str : json -> pystr;
}.

(** An HTTP request sent by the service. *)
Inductive http_call :=
| PUT (url : pystr) (data : list byte)
| GET (url : pystr).

(* ===================================================================== *)
(** ** Models ([pydantic]) and stored records *)
(* ===================================================================== *)

Record CreateFormRequest := {
  req_publicKey : pystr;
  req_schema : gmap pystr json;
}.

Record CreateFormResponse := {
  formId : pystr;
  adminLink : pystr;
  submitLink : pystr;
}.

Record SubmitRequest := {
  encrypted : pystr;
}.

(** A value of [forms]: [{"publicKey": ..., "schema": ...}]. *)
Record form := {
  publicKey : pystr;
  schema : gmap pystr json;
}.

(** An element of a [submissions] list: [{"blobId": ...}]. *)
Record submission := {
  blobId : json;
}.

(** What [submit] returns: [{"status": ..., "blobId": ...}]. *)
Record SubmitResponse := {
  status : pystr;
  stored_blobId : json;
}.

(** An element of what [list_submissions] returns:
    [{"blobId": ..., "encrypted": ...}]. *)
Record entry := {
  entry_blobId : json;
  entry_encrypted : pystr;
}.

Definition PUBLISHER_BASE : pystr := py "https://publisher.walrus-testnet.walrus.space".
Definition AGGREGATOR_BASE : pystr := py "https://aggregator.walrus-testnet.walrus.space".

Section Service.
Context {P : Platform}.

(** The process state: the two module-level dictionaries, the world, and
    the requests sent so far (oldest first). *)
Record state := State {
  forms : gmap pystr form;
  submissions : gmap pystr (list submission);
  world : World;
  wire : list http_call;
}.

Definition set_forms (f : gmap pystr form) (s : state) : state :=
  State f (submissions s) (world s) (wire s).
Definition set_submissions (m : gmap pystr (list submission)) (s : state) : state :=
  State (forms s) m (world s) (wire s).

(** *** The handler monad *)

Definition M (A : Type) : Type := state -> result A * state.

Definition ret {A} (a : A) : M A := fun s => (Ok a, s).
Definition raise {A} (e : exn) : M A := fun s => (Raise e, s).
Definition bind {A B} (m : M A) (k : A -> M B) : M B :=
  fun s =>
    match m s with
    | (Ok a, s') => k a s'
    | (Raise e, s') => (Raise e, s')
    end.

Notation "'do' x <- m ; k" := (bind m (fun x => k))
  (at level 10, x name, m at level 100, k at level 200).

Definition get_state : M state := fun s => (Ok s, s).
Definition modify (f : state -> state) : M unit := fun s => (Ok tt, f s).

(** A builtin that raises [e] where the pure function has no result. *)
Definition or_raise {A} (e : exn) (o : option A) : M A :=
  match o with
  | Some a => ret a
  | None => raise e
  end.

(** A pure operation on values that may raise. *)
Definition lift {A} (r : result A) : M A := fun s => (r, s).

Definition do_put (url : pystr) (data : list byte) : M outcome :=
  fun s =>
    let '(o, w) := requests_put url data (world s) in
    (Ok o, State (forms s) (submissions s) w (wire s ++ [PUT url data])).

Definition do_get (url : pystr) : M outcome :=
  fun s =>
    let '(o, w) := requests_get url (world s) in
    (Ok o, State (forms s) (submissions s) w (wire s ++ [GET url])).

(** [print(...)]: the line goes to the standard output; if the write
    raises, so does the call. *)
Definition do_print (line : log_line) : M unit :=
  fun s =>
    let '(r, w) := print_line line (world s) in
    (match r with
     | None => Ok tt
     | Some e => Raise (exn_of_print e)
     end,
     State (forms s) (submissions s) w (wire s)).

(** [secrets.token_hex(n)]: [n] random bytes, in hexadecimal. *)
Definition token_hex (n : nat) : M pystr :=
  fun s =>
    let '(bs, w) := token_bytes n (world s) in
    (Ok (hexlify bs), State (forms s) (submissions s) w (wire s)).

(** [f"{v}"]: a string formats as itself, anything else through [str()]. *)
Definition format_value (v : json) : pystr :=
  match v with
  | JStr s => s
  | _ => py_str v
  end.

(** [forms[key] = f] and [submissions[key] = items]. *)
Definition forms_setitem (key : pystr) (f : form) : M unit :=
  modify (fun s => set_forms (<[key := f]> (forms s)) s).

Definition submissions_setitem (key : pystr) (items : list submission) : M unit :=
  modify (fun s => set_submissions (<[key := items]> (submissions s)) s).

(** [submissions[key].append(item)]: the subscript raises [KeyError] when
    the key is absent, otherwise the list stored there grows in place. *)
Definition submissions_append (key : pystr) (item : submission) : M unit :=
  do s <- get_state;
  do items <- or_raise (KeyError key) (submissions s !! key);
  submissions_setitem key (items ++ [item]).

(** *** Walrus upload *)

Definition walrus_upload (encrypted_str : pystr) : M json :=
  do blob_bytes <- or_raise UnicodeEncodeError (encode_utf8 encrypted_str);
  let url := PUBLISHER_BASE ++ py "/v1/blobs?epochs=1&permanent=true" in
  do o <- do_put url blob_bytes;
  match o with
  | RequestException =>
      do _ <- do_print WalrusUploadNetworkError;
      raise (HTTPException 500 "walrus upload network error")
  | Returned resp =>
      if negb (status_code resp =? 200)
      then
        do _ <- do_print (WalrusUploadError resp);
        raise (HTTPException 500 "walrus upload failed")
      else
        match json_call resp with
        | NotJSON =>
            do _ <- do_print (WalrusUploadNonJSON resp);
            raise (HTTPException 500 "walrus upload bad response")
        | TooDeep => raise RecursionError
        | Parsed j =>
            do created <- lift (py_in (py "newlyCreated") j);
            if created
            then
              do a <- lift (py_getitem j (py "newlyCreated"));
              do b <- lift (py_getitem a (py "blobObject"));
              lift (py_getitem b (py "blobId"))
            else
              do certified <- lift (py_in (py "alreadyCertified") j);
              if certified
              then
                do a <- lift (py_getitem j (py "alreadyCertified"));
                lift (py_getitem a (py "blobId"))
              else
                do _ <- do_print (WalrusUploadMissingBlobId j);
                raise (HTTPException 500 "walrus upload missing blobId")
        end
  end.

(** *** Walrus fetch *)

Definition walrus_fetch (blob_id : json) : M pystr :=
  let url := AGGREGATOR_BASE ++ py "/v1/blobs/" ++ format_value blob_id in
  do o <- do_get url;
  match o with
  | RequestException =>
      do _ <- do_print WalrusFetchNetworkError;
      raise (HTTPException 500 "walrus fetch network error")
  | Returned resp =>
      if negb (status_code resp =? 200)
      then
        do _ <- do_print (WalrusFetchError resp);
        raise (HTTPException 500 "walrus fetch failed")
      else or_raise UnicodeDecodeError (decode_utf8 (content resp))
  end.

(** *** Routes *)

Definition health : M pystr := ret (py "ok").

Definition create_form (data : CreateFormRequest) : M CreateFormResponse :=
  do form_id <- token_hex 16;
  do _ <- forms_setitem form_id {| publicKey := req_publicKey data;
                              schema := req_schema data |};
  do _ <- submissions_setitem form_id [];
  ret {| formId := form_id;
         adminLink := py "/admin/" ++ form_id;
         submitLink := py "/f/" ++ form_id |}.

Definition submit (formId : pystr) (data : SubmitRequest) : M SubmitResponse :=
  do s <- get_state;
  match forms s !! formId with
  | None => raise (HTTPException 404 "form not found")
  | Some _ =>
      do blob_id <- walrus_upload (encrypted data);
      do _ <- submissions_append formId {| blobId := blob_id |};
      ret {| status := py "stored"; stored_blobId := blob_id |}
  end.

(** The [for] loop of [list_submissions], with [result] as accumulator. *)
Fixpoint fetch_items (items : list submission) (result : list entry) : M (list entry) :=
  match items with
  | [] => ret result
  | item :: items' =>
      let blob_id := blobId item in
      do encrypted <- walrus_fetch blob_id;
      fetch_items items'
        (result ++ [{| entry_blobId := blob_id; entry_encrypted := encrypted |}])
  end.

Definition list_submissions (formId : pystr) : M (list entry) :=
  do s <- get_state;
  match submissions s !! formId with
  | None => raise (HTTPException 404 "form not found")
  | Some items => fetch_items items []
  end.

Definition get_form (formId : pystr) : M form :=
  do s <- get_state;
  match forms s !! formId with
  | None => raise (HTTPException 404 "form not found")
  | Some f => ret f
  end.

End Service.

(* ===================================================================== *)
(** ** The service as a whole *)
(* ===================================================================== *)

Section Process.
Context {P : Platform}.

(** The state at start-up: both dictionaries empty, nothing sent yet. *)
Definition init (w : World) : state := State ∅ ∅ w [].

Inductive request :=
| Health
| CreateForm (data : CreateFormRequest)
| Submit (formId : pystr) (data : SubmitRequest)
| ListSubmissions (formId : pystr)
| GetForm (formId : pystr).

(** The state a request leaves behind, whether its handler returned or
    raised. *)
Definition serve (r : request) (s : state) : state :=
  match r with
  | Health => snd (health s)
  | CreateForm data => snd (create_form data s)
  | Submit f data => snd (submit f data s)
  | ListSubmissions f => snd (list_submissions f s)
  | GetForm f => snd (get_form f s)
  end.

Definition is_create (r : request) : bool :=
  match r with
  | CreateForm _ => true
  | _ => false
  end.

(** A sequence of requests, served one after the other. *)
Definition serve_all (rs : list request) (s : state) : state :=
  foldl (fun s r => serve r s) s rs.

(** The states the process can be in. *)
Inductive reachable : state -> Prop :=
| reachable_init w : reachable (init w)
| reachable_serve r s : reachable s -> reachable (serve r s).

(** The registry and the ledger know the same form identifiers. *)
Definition ledger_consistent (s : state) : Prop :=
  dom (forms s) = dom (submissions s).

(** The URL [walrus_fetch] asks the aggregator for. *)
Definition blob_url (blob_id : json) : pystr :=
  AGGREGATOR_BASE ++ py "/v1/blobs/" ++ format_value blob_id.

(** The body of a response if its status is 200. *)
Definition body_if_200 (o : outcome) : option (list byte) :=
  match o with
  | Returned resp => if status_code resp =? 200 then Some (content resp) else None
  | RequestException => None
  end.

(** What the aggregator answers when asked for the given blobs one after
    the other, starting in world [w]. *)
Fixpoint aggregator_serves (w : World) (blob_ids : list json) : list (option (list byte)) :=
  match blob_ids with
  | [] => []
  | blob_id :: rest =>
      let '(o, w') := requests_get (blob_url blob_id) w in
      body_if_200 o :: aggregator_serves w' rest
  end.

End Process.

(* ===================================================================== *)
(** ** The error vocabulary of the specification *)
(* ===================================================================== *)

Inductive error_kind :=
| NotFound
| StoreUnavailable
| StoreRejected
| StoreProtocolError.

(** Which kind of the specification's taxonomy an exception of the code
    is: the 404 is [NotFound]; each of the six 500s raised by the two
    Walrus helpers is one of the store kinds; every other exception is
    unclassified. *)
Definition classify (e : exn) : option error_kind :=
  match e with
  | HTTPException 404 _ => Some NotFound
  | HTTPException 500 d =>
      if (d =? "walrus upload network error")%string
         || (d =? "walrus fetch network error")%string
      then Some StoreUnavailable
      else if (d =? "walrus upload failed")%string
              || (d =? "walrus fetch failed")%string
      then Some StoreRejected
      else if (d =? "walrus upload bad response")%string
              || (d =? "walrus upload missing blobId")%string
      then Some StoreProtocolError
      else None
  | _ => None
  end.

Definition store_related (e : exn) : Prop :=
  classify e = Some StoreUnavailable \/ classify e = Some StoreRejected
  \/ classify e = Some StoreProtocolError.

(** A dict has the key. *)
Definition has_key (j : json) (key : pystr) : Prop :=
  match j with
  | JDict m => is_Some (m !! key)
  | _ => False
  end.

(** A JSON value that is no container: [None], a boolean, a number. *)
Definition is_scalar (j : json) : bool :=
  match j with
  | JNull | JBool _ | JInt _ | JFloat _ => true
  | JStr _ | JList _ | JDict _ => false
  end.

(** The value at a path of keys, when every step is a dict with the key. *)
Fixpoint at_path (j : json) (path : list pystr) : option json :=
  match path with
  | [] => Some j
  | key :: path' =>
      match j with
      | JDict m =>
          match m !! key with
          | Some v => at_path v path'
          | None => None
          end
      | _ => None
      end
  end.

Definition created_path : list pystr := [py "newlyCreated"; py "blobObject"; py "blobId"].
Definition certified_path : list pystr := [py "alreadyCertified"; py "blobId"].

(* ===================================================================== *)
(** ** Two stand-ins for the world *)
(* ===================================================================== *)

(** A stand-in for [str()], good enough for the stand-in worlds. *)
Definition sim_str (v : json) : pystr :=
  match v with
  | JNull => py "None"
  | JBool true => py "True"
  | JBool false => py "False"
  | _ => py "?"
  end.

(** A world that answers from a script: each request takes the next
    prepared outcome, each call for randomness the next prepared token;
    its standard output takes every line. *)
Record script := Script {
  replies : list outcome;
  tokens : list (list byte);
}.

Definition next_reply (w : script) : outcome * script :=
  match replies w with
  | o :: rest => (o, Script rest (tokens w))
  | [] => (RequestException, w)
  end.

Definition scripted : Platform := {|
  World := script;
  requests_put := fun _ _ w => next_reply w;
  requests_get := fun _ w => next_reply w;
  token_bytes := fun n w =>
    match tokens w with
    | t :: rest => (t, Script (replies w) rest)
    | [] => (replicate n x00, w)
    end;
  print_line := fun _ w => (None, w);
  py_str := sim_str;
|}.

(** The scripted world with a standard output that is a UTF-8 stream: a
    string body shown by line 71 is written as it is, so a lone surrogate
    in it makes the write raise [UnicodeEncodeError]; every other line
    goes out. *)
Definition terminal_print (line : log_line) (w : script) : option print_exn * script :=
  match line with
  | WalrusUploadMissingBlobId (JStr text) =>
      match encode_utf8 text with
      | Some _ => (None, w)
      | None => (Some PrintUnicodeEncodeError, w)
      end
  | _ => (None, w)
  end.

Definition scripted_terminal : Platform := {|
  World := script;
  requests_put := fun _ _ w => next_reply w;
  requests_get := fun _ w => next_reply w;
  token_bytes := fun n w =>
    match tokens w with
    | t :: rest => (t, Script (replies w) rest)
    | [] => (replicate n x00, w)
    end;
  print_line := terminal_print;
  py_str := sim_str;
|}.

(** A content-addressed blob store behind the two Walrus endpoints: the
    publisher names a blob by the hexadecimal of its bytes and says whether
    it was new; the aggregator returns the bytes kept under a name. *)
Record depot := Depot {
  blobs : gmap pystr (list byte);
  drawn : Z;
}.

Definition created_body (blob_id : pystr) : gmap pystr json :=
  {[ py "newlyCreated" :=
       JDict {[ py "blobObject" := JDict {[ py "blobId" := JStr blob_id ]} ]} ]}.

Definition certified_body (blob_id : pystr) : gmap pystr json :=
  {[ py "alreadyCertified" := JDict {[ py "blobId" := JStr blob_id ]} ]}.

Definition variant_body (blob_id : pystr) (fresh : bool) : json :=
  JDict (if fresh then created_body blob_id else certified_body blob_id).

Fixpoint strip_prefix (prefix s : pystr) : option pystr :=
  match prefix, s with
  | [], _ => Some s
  | a :: prefix', b :: s' => if bool_decide (a = b) then strip_prefix prefix' s' else None
  | _ :: _, [] => None
  end.

Definition not_found : response := Response 404 [] None.

Definition depot_put (url : pystr) (data : list byte) (w : depot) : outcome * depot :=
  if bool_decide (url = PUBLISHER_BASE ++ py "/v1/blobs?epochs=1&permanent=true")
  then
    let blob_id := hexlify data in
    match blobs w !! blob_id with
    | Some _ => (Returned (Response 200 [] (Some (variant_body blob_id false))), w)
    | None =>
        (Returned (Response 200 [] (Some (variant_body blob_id true))),
         Depot (<[blob_id := data]> (blobs w)) (drawn w))
    end
  else (Returned not_found, w).

Definition depot_get (url : pystr) (w : depot) : outcome * depot :=
  match strip_prefix (AGGREGATOR_BASE ++ py "/v1/blobs/") url with
  | Some blob_id =>
      match blobs w !! blob_id with
      | Some data => (Returned (Response 200 data None), w)
      | None => (Returned not_found, w)
      end
  | None => (Returned not_found, w)
  end.

Definition depot_world : Platform := {|
  World := depot;
  requests_put := depot_put;
  requests_get := depot_get;
  token_bytes := fun n w =>
    (replicate n (mk_byte (drawn w mod 256)), Depot (blobs w) (drawn w + 1));
  print_line := fun _ w => (None, w);
  py_str := sim_str;
|}.

(** Every blob of the depot is kept under its own name. *)
Definition honest (w : depot) : Prop :=
  forall blob_id data, blobs w !! blob_id = Some data -> blob_id = hexlify data.

(** *** Scenarios on the stand-in worlds *)

Definition demo_request : CreateFormRequest :=
  {| req_publicKey := py "pk1";
     req_schema := {[ py "fields" := JList [JStr (py "name")] ]} |}.

Definition demo_form : form :=
  {| publicKey := py "pk1";
     schema := {[ py "fields" := JList [JStr (py "name")] ]} |}.

(** One registered form, "f1", with an empty list, in a scripted world. *)
Definition one_form (script : list outcome) : @state scripted :=
  @State scripted {[ py "f1" := demo_form ]} {[ py "f1" := [] ]} (Script script []) [].

(** A 200 whose body parses to [j]. *)
Definition ok_json (j : json) : outcome := Returned (Response 200 [] (Some j)).

(** A 200 with the given raw body, which is not JSON. *)
Definition ok_raw (data : list byte) : outcome := Returned (Response 200 data None).

Definition hello : SubmitRequest := {| encrypted := py "hello" |}.
Definition hello_bytes : list byte := [x68; x65; x6c; x6c; x6f].

(** A body of the publisher that is an object without either variant. *)
Definition error_body : gmap pystr json := {[ py "error" := JStr (py "full") ]}.

(** An object with both keys, whose "newlyCreated" holds nothing. *)
Definition both_keys_body : gmap pystr json :=
  {[ py "newlyCreated" := JDict ∅;
     py "alreadyCertified" := JDict {[ py "blobId" := JStr (py "b1") ]} ]}.

(** The form "f1" with two records, in a scripted world. *)
Definition two_records (script : list outcome) : @state scripted :=
  @State scripted {[ py "f1" := demo_form ]}
    {[ py "f1" := [{| blobId := JStr (py "b1") |}; {| blobId := JStr (py "b2") |}] ]}
    (Script script []) [].

(** One registered form, "f1", in the scripted world with a UTF-8 output. *)
Definition one_form_terminal (script : list outcome) : @state scripted_terminal :=
  @State scripted_terminal {[ py "f1" := demo_form ]} {[ py "f1" := [] ]}
    (Script script []) [].

(** The form "f1" with three records, in a scripted world. *)
Definition three_records (script : list outcome) : @state scripted :=
  @State scripted {[ py "f1" := demo_form ]}
    {[ py "f1" := [{| blobId := JStr (py "b1") |}; {| blobId := JStr (py "b2") |};
                   {| blobId := JStr (py "b3") |}] ]}
    (Script script []) [].

Definition other_request : CreateFormRequest :=
  {| req_publicKey := py "pk2"; req_schema := ∅ |}.

(** The depot after start-up and one [create_form]. *)
Definition depot_start : @state depot_world := @init depot_world (Depot ∅ 7).
Definition depot_form_id : pystr := hexlify (replicate 16 (mk_byte 7)).
Definition depot_ready : @state depot_world :=
  snd (@create_form depot_world demo_request depot_start).

(* ===================================================================== *)
(** ** The two Walrus helpers, split at the request *)
(* ===================================================================== *)

(** Each helper sends one request and then only reads the outcome.  The
    functions below are that second half: the line the helper prints (if
    it prints one) and what it returns or raises once the line is out;
    [walrus_upload_sent] and [walrus_fetch_sent] show that the helpers
    compute exactly them. *)

Definition upload_url : pystr :=
  PUBLISHER_BASE ++ py "/v1/blobs?epochs=1&permanent=true".

(** Lines 65-72 of [walrus_upload] on the parsed body. *)
Definition read_upload (j : json) : result json :=
  match py_in (py "newlyCreated") j with
  | Raise e => Raise e
  | Ok true =>
      match py_getitem j (py "newlyCreated") with
      | Raise e => Raise e
      | Ok a =>
          match py_getitem a (py "blobObject") with
          | Raise e => Raise e
          | Ok b => py_getitem b (py "blobId")
          end
      end
  | Ok false =>
      match py_in (py "alreadyCertified") j with
      | Raise e => Raise e
      | Ok true =>
          match py_getitem j (py "alreadyCertified") with
          | Raise e => Raise e
          | Ok a => py_getitem a (py "blobId")
          end
      | Ok false => Raise (HTTPException 500 "walrus upload missing blobId")
      end
  end.

(** Both membership tests of lines 66 and 68 are false: control reaches
    line 71. *)
Definition falls_through (j : json) : bool :=
  match py_in (py "newlyCreated") j, py_in (py "alreadyCertified") j with
  | Ok false, Ok false => true
  | _, _ => false
  end.

Definition upload_reply (o : outcome) : result json :=
  match o with
  | RequestException => Raise (HTTPException 500 "walrus upload network error")
  | Returned resp =>
      if status_code resp =? 200
      then match json_call resp with
           | NotJSON => Raise (HTTPException 500 "walrus upload bad response")
           | TooDeep => Raise RecursionError
           | Parsed j => read_upload j
           end
      else Raise (HTTPException 500 "walrus upload failed")
  end.

(** The line [walrus_upload] prints for an outcome, if any. *)
Definition upload_log (o : outcome) : option log_line :=
  match o with
  | RequestException => Some WalrusUploadNetworkError
  | Returned resp =>
      if status_code resp =? 200
      then match json_call resp with
           | NotJSON => Some (WalrusUploadNonJSON resp)
           | TooDeep => None
           | Parsed j =>
               if falls_through j then Some (WalrusUploadMissingBlobId j) else None
           end
      else Some (WalrusUploadError resp)
  end.

Definition fetch_reply (o : outcome) : result pystr :=
  match o with
  | RequestException => Raise (HTTPException 500 "walrus fetch network error")
  | Returned resp =>
      if status_code resp =? 200
      then match decode_utf8 (content resp) with
           | Some text => Ok text
           | None => Raise UnicodeDecodeError
           end
      else Raise (HTTPException 500 "walrus fetch failed")
  end.

(** The line [walrus_fetch] prints for an outcome, if any. *)
Definition fetch_log (o : outcome) : option log_line :=
  match o with
  | RequestException => Some WalrusFetchNetworkError
  | Returned resp =>
      if status_code resp =? 200 then None else Some (WalrusFetchError resp)
  end.

(** Print the line, if there is one, then return or raise [r]; a print
    that raises takes the place of [r]. *)
Definition finish {P : Platform} {A} (line : option log_line) (r : result A) : M A :=
  match line with
  | None => lift r
  | Some l => bind (do_print l) (fun _ => lift r)
  end.

(** The state after one request: the dictionaries as they were, the world
    as the request left it, the request added to the wire. *)
Definition after_call {P : Platform} (s : state) (w : World) (c : http_call) : state :=
  State (forms s) (submissions s) w (wire s ++ [c]).

(** The ledger of [s] with one record appended to the list of [f]. *)
Definition appended {P : Platform} (f : pystr) (old : list submission)
    (blob_id : json) (s : state) : state :=
  set_submissions (<[f := old ++ [{| blobId := blob_id |}]]> (submissions s)) s.

(* ===================================================================== *)
(** ** Vocabulary for the behaviour of the helpers and handlers *)
(* ===================================================================== *)

(** The exceptions [walrus_upload] has a [raise] or a modelled failing
    operation for: the encoding of the text, the four [HTTPException]s,
    the membership tests and subscripts of lines 66-69, [resp.json()] on a
    body nested too deep, and a [print] that fails. *)
Definition upload_exn (e : exn) : Prop :=
  (exists pe, e = exn_of_print pe)
  \/ e = RecursionError
  \/ e = UnicodeEncodeError
  \/ e = TypeError
  \/ e = KeyError (py "blobObject")
  \/ e = KeyError (py "blobId")
  \/ e = HTTPException 500 "walrus upload network error"
  \/ e = HTTPException 500 "walrus upload failed"
  \/ e = HTTPException 500 "walrus upload bad response"
  \/ e = HTTPException 500 "walrus upload missing blobId".

(** The same for [walrus_fetch]. *)
Definition fetch_exn (e : exn) : Prop :=
  (exists pe, e = exn_of_print pe)
  \/ e = UnicodeDecodeError
  \/ e = HTTPException 500 "walrus fetch network error"
  \/ e = HTTPException 500 "walrus fetch failed".

(** A character of [0-9a-f]. *)
Definition is_hex_char (c : Z) : bool :=
  (48 <=? c) && (c <=? 57) || (97 <=? c) && (c <=? 102).

Definition exn_of {A} (r : result A) : option exn :=
  match r with
  | Ok _ => None
  | Raise e => Some e
  end.

Section Clients.
Context {P : Platform}.

(** The GET requests that listing the given records sends. *)
Definition gets (items : list submission) : list http_call :=
  (fun item => GET (blob_url (blobId item))) <$> items.

(** The text a fetch returns for an outcome: the body of a 200, decoded. *)
Definition fetch_text (o : outcome) : option pystr :=
  match o with
  | Returned resp =>
      if status_code resp =? 200 then decode_utf8 (content resp) else None
  | RequestException => None
  end.

(** The entries of the leading records whose fetch succeeds, when the
    records are asked for one after the other starting in world [w]: it
    stops at the first record whose fetch does not give a text. *)
Fixpoint served (w : World) (items : list submission) : list entry :=
  match items with
  | [] => []
  | item :: rest =>
      let '(o, w') := requests_get (blob_url (blobId item)) w in
      match fetch_text o with
      | Some text =>
          {| entry_blobId := blobId item; entry_encrypted := text |} :: served w' rest
      | None => []
      end
  end.

(** A request to one of the two Walrus endpoints the service uses. *)
Definition is_walrus_call (c : http_call) : Prop :=
  match c with
  | PUT url _ => url = upload_url
  | GET url => exists blob_id, url = blob_url blob_id
  end.

(** The exception a request ends with, if its handler raises. *)
Definition raised (r : request) (s : state) : option exn :=
  match r with
  | Health => exn_of (fst (health s))
  | CreateForm data => exn_of (fst (create_form data s))
  | Submit f data => exn_of (fst (submit f data s))
  | ListSubmissions f => exn_of (fst (list_submissions f s))
  | GetForm f => exn_of (fst (get_form f s))
  end.

(** A client that submits the texts to one form, one after the other, and
    stops at the first submit that raises. *)
Fixpoint submit_each (f : pystr) (texts : list pystr) : M (list SubmitResponse) :=
  match texts with
  | [] => ret []
  | text :: texts' =>
      bind (submit f {| encrypted := text |}) (fun r =>
      bind (submit_each f texts') (fun rs =>
      ret (r :: rs)))
  end.

(** The record [submit] appends when it returns [r]. *)
Definition record_of (r : SubmitResponse) : submission :=
  {| blobId := stored_blobId r |}.

End Clients.

(* ===================================================================== *)
(** * Properties *)
(* ===================================================================== *)

(** ** The codec: decoding undoes encoding *)

Lemma byte_val_mk z : 0 <= z < 256 -> byte_val (mk_byte z) = z.
Proof.
  intros Hz. unfold byte_val, mk_byte.
  destruct (Byte.of_N (Z.to_N z)) as [b|] eqn:E.
  - apply Byte.to_of_N in E. rewrite E. lia.
  - apply Byte.of_N_None_iff in E. lia.
Qed.

Ltac by_range := Z.div_mod_to_equations; lia.

Ltac decide_tests :=
  repeat match goal with
  | |- context [?a <? ?b] =>
      destruct (Z.ltb_spec a b); try (exfalso; by_range)
  | |- context [?a <=? ?b] =>
      destruct (Z.leb_spec a b); try (exfalso; by_range)
  end.

Lemma decode_width1 c r :
  0 <= c < 0x80 -> decode_utf8 (mk_byte c :: r) = cons c <$> decode_utf8 r.
Proof.
  intros Hc. cbn [decode_utf8]. rewrite byte_val_mk by lia.
  decide_tests. reflexivity.
Qed.

Lemma decode_width2 c r :
  0x80 <= c < 0x800 ->
  decode_utf8 (mk_byte (0xC0 + c / 64) :: mk_byte (0x80 + c mod 64) :: r)
  = cons c <$> decode_utf8 r.
Proof.
  intros Hc. cbn [decode_utf8]. rewrite !byte_val_mk by by_range.
  unfold is_cont. decide_tests. cbn [andb].
  replace ((0xC0 + c / 64 - 0xC0) * 64 + (0x80 + c mod 64 - 0x80)) with c by by_range.
  reflexivity.
Qed.

Lemma decode_width3 c r :
  0x800 <= c < 0x10000 -> is_surrogate c = false ->
  decode_utf8 (mk_byte (0xE0 + c / 4096) :: mk_byte (0x80 + (c / 64) mod 64)
               :: mk_byte (0x80 + c mod 64) :: r)
  = cons c <$> decode_utf8 r.
Proof.
  intros Hc Hs. cbn [decode_utf8]. rewrite !byte_val_mk by by_range.
  replace ((0xE0 + c / 4096 - 0xE0) * 4096 + (0x80 + (c / 64) mod 64 - 0x80) * 64
           + (0x80 + c mod 64 - 0x80)) with c by by_range.
  rewrite Hs. unfold is_cont. decide_tests. reflexivity.
Qed.

Lemma decode_width4 c r :
  0x10000 <= c < 0x110000 ->
  decode_utf8 (mk_byte (0xF0 + c / 262144) :: mk_byte (0x80 + (c / 4096) mod 64)
               :: mk_byte (0x80 + (c / 64) mod 64) :: mk_byte (0x80 + c mod 64) :: r)
  = cons c <$> decode_utf8 r.
Proof.
  intros Hc. cbn [decode_utf8]. rewrite !byte_val_mk by by_range.
  replace ((0xF0 + c / 262144 - 0xF0) * 262144 + (0x80 + (c / 4096) mod 64 - 0x80) * 4096
           + (0x80 + (c / 64) mod 64 - 0x80) * 64 + (0x80 + c mod 64 - 0x80))
    with c by by_range.
  unfold is_cont. decide_tests. reflexivity.
Qed.

Lemma decode_encode_char c b r :
  encode_char c = Some b -> decode_utf8 (b ++ r) = cons c <$> decode_utf8 r.
Proof.
  unfold encode_char. intros H.
  destruct (Z.ltb_spec c 0); [discriminate|].
  destruct (Z.ltb_spec c 0x80).
  { injection H as <-. apply decode_width1. lia. }
  destruct (Z.ltb_spec c 0x800).
  { injection H as <-. apply decode_width2. lia. }
  destruct (Z.ltb_spec c 0x10000).
  { destruct (is_surrogate c) eqn:Hs; [discriminate|].
    injection H as <-. apply decode_width3; [lia | done]. }
  destruct (Z.ltb_spec c 0x110000); [|discriminate].
  injection H as <-. apply decode_width4. lia.
Qed.

(** Whatever [str.encode("utf-8")] produces, [bytes.decode("utf-8")]
    reads back as the same string. *)
Lemma decode_encode_utf8 s bs :
  encode_utf8 s = Some bs -> decode_utf8 bs = Some s.
Proof.
  revert bs. induction s as [|c s IH]; intros bs H; cbn in H.
  - by injection H as <-.
  - destruct (encode_char c) as [b|] eqn:Hc; [|discriminate].
    destruct (encode_utf8 s) as [bs'|] eqn:Hs; [|discriminate].
    injection H as <-. rewrite (decode_encode_char _ _ _ Hc), (IH _ eq_refl).
    reflexivity.
Qed.

(** ** The helpers and the handlers, step by step *)

Section Steps.
Context {P : Platform}.

Lemma finish_none {A} (r : result A) s : finish None r s = (r, s).
Proof. reflexivity. Qed.

(** Printing changes neither dictionary nor the wire. *)
Lemma finish_frame {A} line (r : result A) s :
  forms (snd (finish line r s)) = forms s
  /\ submissions (snd (finish line r s)) = submissions s
  /\ wire (snd (finish line r s)) = wire s.
Proof.
  destruct line as [l|]; [|done]. unfold finish, bind, do_print, lift.
  by destruct (print_line l (world s)) as [[pe|] w].
Qed.

(** What comes out is [r], unless the print raised. *)
Lemma finish_result {A} line (r : result A) s :
  fst (finish line r s) = r
  \/ exists l pe, line = Some l
       /\ fst (print_line l (world s)) = Some pe
       /\ fst (finish line r s) = Raise (exn_of_print pe).
Proof.
  destruct line as [l|]; [|by left]. unfold finish, bind, do_print, lift.
  destruct (print_line l (world s)) as [[pe|] w] eqn:Hp; [|by left].
  right. exists l, pe. rewrite Hp. by repeat split.
Qed.

(** When the line goes out, what comes out is [r]. *)
Lemma finish_printed {A} l (r : result A) s :
  fst (print_line l (world s)) = None ->
  fst (finish (Some l) r s) = r.
Proof.
  unfold finish, bind, do_print, lift.
  by destruct (print_line l (world s)) as [[pe|] w].
Qed.

Lemma read_upload_ok_passes j v : read_upload j = Ok v -> falls_through j = false.
Proof.
  unfold read_upload, falls_through.
  destruct (py_in (py "newlyCreated") j) as [[]|]; [done| |done].
  by destruct (py_in (py "alreadyCertified") j) as [[]|].
Qed.

Lemma upload_reply_ok_quiet o v : upload_reply o = Ok v -> upload_log o = None.
Proof.
  unfold upload_reply, upload_log. destruct o as [|resp]; [done|].
  destruct (status_code resp =? 200); [|done].
  destruct (json_call resp) as [j| |]; [|done..].
  intros H. by rewrite (read_upload_ok_passes _ _ H).
Qed.

Lemma fetch_reply_ok_quiet o text : fetch_reply o = Ok text -> fetch_log o = None.
Proof.
  unfold fetch_reply, fetch_log. destruct o as [|resp]; [done|].
  by destruct (status_code resp =? 200).
Qed.

Lemma walrus_upload_sent p s data o w :
  encode_utf8 p = Some data ->
  requests_put upload_url data (world s) = (o, w) ->
  walrus_upload p s
  = finish (upload_log o) (upload_reply o) (after_call s w (PUT upload_url data)).
Proof.
  intros He Hp. unfold walrus_upload, bind at 1 2, or_raise, do_put, ret.
  rewrite He. fold upload_url. rewrite Hp. fold (after_call s w (PUT upload_url data)).
  destruct o as [|resp]; cbn [upload_reply upload_log negb]; [done|].
  destruct (status_code resp =? 200); cbn [negb]; [|done].
  destruct (json_call resp) as [j| |]; [|done..].
  unfold read_upload, falls_through, bind, lift, raise.
  destruct (py_in (py "newlyCreated") j) as [[]|]; [| |done].
  - destruct (py_getitem j (py "newlyCreated")) as [a|]; [|done].
    destruct (py_getitem a (py "blobObject")) as [b|]; [|done].
    destruct (py_getitem b (py "blobId")); done.
  - destruct (py_in (py "alreadyCertified") j) as [[]|]; [| done |done].
    destruct (py_getitem j (py "alreadyCertified")) as [a|]; [|done].
    destruct (py_getitem a (py "blobId")); done.
Qed.

(** The same when nothing is printed. *)
Lemma walrus_upload_quiet p s data o w :
  encode_utf8 p = Some data ->
  requests_put upload_url data (world s) = (o, w) ->
  upload_log o = None ->
  walrus_upload p s = (upload_reply o, after_call s w (PUT upload_url data)).
Proof.
  intros He Hp Hl. by rewrite (walrus_upload_sent _ _ _ _ _ He Hp), Hl.
Qed.

Lemma walrus_upload_unencodable p s :
  encode_utf8 p = None -> walrus_upload p s = (Raise UnicodeEncodeError, s).
Proof.
  intros He. unfold walrus_upload, bind, or_raise, raise. by rewrite He.
Qed.

(** An upload never touches the two dictionaries. *)
Lemma walrus_upload_frame p s :
  forms (snd (walrus_upload p s)) = forms s
  /\ submissions (snd (walrus_upload p s)) = submissions s.
Proof.
  destruct (encode_utf8 p) as [data|] eqn:He.
  - destruct (requests_put upload_url data (world s)) as [o w] eqn:Hp.
    rewrite (walrus_upload_sent _ _ _ _ _ He Hp).
    by destruct (finish_frame (upload_log o) (upload_reply o)
                   (after_call s w (PUT upload_url data))) as (-> & -> & _).
  - by rewrite (walrus_upload_unencodable _ _ He).
Qed.

Lemma walrus_fetch_sent blob_id s o w :
  requests_get (blob_url blob_id) (world s) = (o, w) ->
  walrus_fetch blob_id s
  = finish (fetch_log o) (fetch_reply o) (after_call s w (GET (blob_url blob_id))).
Proof.
  intros Hg. unfold walrus_fetch, bind at 1, or_raise, do_get, ret.
  fold (blob_url blob_id). rewrite Hg. fold (after_call s w (GET (blob_url blob_id))).
  destruct o as [|resp]; cbn [fetch_reply fetch_log]; [done|].
  destruct (status_code resp =? 200); cbn [negb]; [|done].
  destruct (decode_utf8 (content resp)); done.
Qed.

(** The same when the aggregator answers 200: nothing is printed. *)
Lemma walrus_fetch_ok blob_id s resp w :
  requests_get (blob_url blob_id) (world s) = (Returned resp, w) ->
  status_code resp = 200 ->
  walrus_fetch blob_id s
  = (match decode_utf8 (content resp) with
     | Some text => Ok text
     | None => Raise UnicodeDecodeError
     end,
     after_call s w (GET (blob_url blob_id))).
Proof.
  intros Hg Hst. rewrite (walrus_fetch_sent _ _ _ _ Hg).
  unfold fetch_log, fetch_reply. by rewrite Hst.
Qed.

Lemma walrus_fetch_frame blob_id s :
  forms (snd (walrus_fetch blob_id s)) = forms s
  /\ submissions (snd (walrus_fetch blob_id s)) = submissions s.
Proof.
  destruct (requests_get (blob_url blob_id) (world s)) as [o w] eqn:Hg.
  rewrite (walrus_fetch_sent _ _ _ _ Hg).
  by destruct (finish_frame (fetch_log o) (fetch_reply o)
                 (after_call s w (GET (blob_url blob_id)))) as (-> & -> & _).
Qed.

Lemma fetch_items_frame items acc s :
  forms (snd (fetch_items items acc s)) = forms s
  /\ submissions (snd (fetch_items items acc s)) = submissions s.
Proof.
  revert acc s. induction items as [|item items IH]; intros acc s; [done|].
  cbn [fetch_items]. unfold bind.
  pose proof (walrus_fetch_frame (blobId item) s) as [Hf Hs].
  destruct (walrus_fetch (blobId item) s) as [[text|e] s1]; cbn [snd] in *.
  - destruct (IH (acc ++ [{| entry_blobId := blobId item; entry_encrypted := text |}]) s1)
      as [Hf' Hs'].
    by rewrite Hf', Hs'.
  - done.
Qed.

(** [submit] on a registered form: the upload, then the append. *)
Lemma submit_registered f d s x :
  forms s !! f = Some x ->
  submit f d s =
    match walrus_upload (encrypted d) s with
    | (Ok blob_id, s1) =>
        match submissions s1 !! f with
        | Some old =>
            (Ok {| status := py "stored"; stored_blobId := blob_id |},
             appended f old blob_id s1)
        | None => (Raise (KeyError f), s1)
        end
    | (Raise e, s1) => (Raise e, s1)
    end.
Proof.
  intros Hf. unfold submit, bind, get_state. rewrite Hf.
  destruct (walrus_upload (encrypted d) s) as [[blob_id|e] s1]; [|done].
  unfold submissions_append, bind, get_state, or_raise.
  destruct (submissions s1 !! f) as [old|]; done.
Qed.

Lemma submit_unregistered f d s :
  forms s !! f = None ->
  submit f d s = (Raise (HTTPException 404 "form not found"), s).
Proof. intros Hf. unfold submit, bind, get_state. by rewrite Hf. Qed.

End Steps.

(** ** The handlers *)

Section Handlers.
Context {P : Platform}.

Lemma create_form_runs data s :
  let '(bs, w) := token_bytes 16 (world s) in
  let form_id := hexlify bs in
  create_form data s =
    (Ok {| formId := form_id;
           adminLink := py "/admin/" ++ form_id;
           submitLink := py "/f/" ++ form_id |},
     State (<[form_id := {| publicKey := req_publicKey data;
                            schema := req_schema data |}]> (forms s))
           (<[form_id := []]> (submissions s)) w (wire s)).
Proof.
  unfold create_form, bind, token_hex, forms_setitem, submissions_setitem,
    modify, ret, set_forms, set_submissions.
  by destruct (token_bytes 16 (world s)) as [bs w].
Qed.

Lemma get_form_frame f s : snd (get_form f s) = s.
Proof. unfold get_form, bind, get_state. by destruct (forms s !! f). Qed.

Lemma list_submissions_frame f s :
  forms (snd (list_submissions f s)) = forms s
  /\ submissions (snd (list_submissions f s)) = submissions s.
Proof.
  unfold list_submissions, bind, get_state.
  destruct (submissions s !! f) as [items|]; [|done].
  apply fetch_items_frame.
Qed.

(** What a submit does to the two dictionaries: when it returns, one
    record has been appended to the list of the form; when it raises,
    nothing has changed. *)
Lemma submit_effect f d s :
  forms (snd (submit f d s)) = forms s
  /\ match fst (submit f d s) with
     | Ok r =>
         exists old, submissions s !! f = Some old
           /\ submissions (snd (submit f d s))
              = <[f := old ++ [{| blobId := stored_blobId r |}]]> (submissions s)
     | Raise _ => submissions (snd (submit f d s)) = submissions s
     end.
Proof.
  destruct (forms s !! f) as [x|] eqn:Hf.
  - rewrite (submit_registered _ _ _ _ Hf).
    pose proof (walrus_upload_frame (encrypted d) s) as [Hfs Hss].
    destruct (walrus_upload (encrypted d) s) as [[blob_id|e] s1]; cbn [fst snd] in *.
    + destruct (submissions s1 !! f) as [old|] eqn:Hold; cbn [fst snd].
      * split; [done|]. exists old. rewrite <- Hss. split; [done|].
        unfold appended, set_submissions. cbn. by rewrite Hss.
      * done.
    + done.
  - by rewrite (submit_unregistered _ _ _ Hf).
Qed.

(** The same for a submit known to have returned. *)
Lemma submit_returned f d s r s' :
  submit f d s = (Ok r, s') ->
  forms s' = forms s
  /\ exists old,
       submissions s !! f = Some old
       /\ submissions s'
          = <[f := old ++ [{| blobId := stored_blobId r |}]]> (submissions s).
Proof.
  intros H. pose proof (submit_effect f d s) as [Hf Hs].
  rewrite H in Hf, Hs. by cbn [fst snd] in *.
Qed.

(** The for loop of [list_submissions] when the aggregator returns, for
    each record in turn, the UTF-8 bytes of a text: the texts come back,
    in the order of the records, after what was accumulated before. *)
Lemma fetch_items_serves items texts acc s :
  aggregator_serves (world s) (blobId <$> items) = encode_utf8 <$> texts ->
  Forall (fun text => is_Some (encode_utf8 text)) texts ->
  fst (fetch_items items acc s)
  = Ok (acc ++ zip_with Build_entry (blobId <$> items) texts).
Proof.
  revert texts acc s.
  induction items as [|item items IH]; intros texts acc s Hserve Hok.
  - cbn. by rewrite app_nil_r.
  - cbn [fmap list_fmap aggregator_serves] in Hserve.
    destruct (requests_get (blob_url (blobId item)) (world s)) as [o w] eqn:Hg.
    destruct texts as [|text texts]; [discriminate|].
    injection Hserve as Hbody Hrest.
    apply Forall_cons in Hok as [[data Hdata] Hok].
    cbn [fetch_items]. unfold bind.
    rewrite Hdata in Hbody. unfold body_if_200 in Hbody.
    destruct o as [|resp]; [done|].
    destruct (status_code resp =? 200) eqn:Hst; [|done].
    apply Z.eqb_eq in Hst. injection Hbody as Hcontent.
    rewrite (walrus_fetch_ok _ _ _ _ Hg Hst), Hcontent.
    rewrite (decode_encode_utf8 _ _ Hdata).
    rewrite (IH texts _ (after_call s w (GET (blob_url (blobId item)))) Hrest Hok).
    cbn. by rewrite <- app_assoc.
Qed.

End Handlers.

(* ===================================================================== *)
(** * The statements of the specification *)
(* ===================================================================== *)

Section Registry.
Context {P : Platform}.

(** C6.  A submit to a form identifier that is not in the registry raises
    the 404 "form not found" (the specification's [NotFound]) and leaves
    the whole state as it was: both dictionaries, the world, and the list
    of requests sent, so the remote store is not contacted. *)
Theorem submit_unknown_form_not_found f d s :
  forms s !! f = None ->
  submit f d s = (Raise (HTTPException 404 "form not found"), s)
  /\ classify (HTTPException 404 "form not found") = Some NotFound
  /\ wire (snd (submit f d s)) = wire s
  /\ world (snd (submit f d s)) = world s.
Proof.
  intros Hf. rewrite (submit_unregistered _ _ _ Hf). by repeat split.
Qed.

(** Only [create_form] writes the registry. *)
Lemma serve_keeps_forms r s :
  is_create r = false -> forms (serve r s) = forms s.
Proof.
  destruct r as [|data|f d|f|f]; cbn [serve is_create]; intros Hr.
  - done.
  - done.
  - apply submit_effect.
  - apply list_submissions_frame.
  - by rewrite get_form_frame.
Qed.

Lemma serve_all_keeps_forms rs s :
  Forall (fun r => is_create r = false) rs -> forms (serve_all rs s) = forms s.
Proof.
  revert s. induction rs as [|r rs IH]; intros s Hrs; [done|].
  apply Forall_cons in Hrs as [Hr Hrs]. unfold serve_all. cbn [foldl].
  fold (serve_all rs (serve r s)). by rewrite IH, serve_keeps_forms.
Qed.

(** C7.  [create_form] returns an identifier together with the links
    ["/admin/" + formId] and ["/f/" + formId] built from that identifier,
    and [get_form] on the identifier returns the public key and the schema
    of the request, in the state [create_form] leaves and after any
    further requests that create no form. *)
Theorem create_form_links_and_get_form data s :
  exists resp,
    fst (create_form data s) = Ok resp
    /\ adminLink resp = py "/admin/" ++ formId resp
    /\ submitLink resp = py "/f/" ++ formId resp
    /\ fst (get_form (formId resp) (snd (create_form data s)))
       = Ok {| publicKey := req_publicKey data; schema := req_schema data |}
    /\ forall rs,
         Forall (fun r => is_create r = false) rs ->
         fst (get_form (formId resp) (serve_all rs (snd (create_form data s))))
         = Ok {| publicKey := req_publicKey data; schema := req_schema data |}.
Proof.
  pose proof (create_form_runs data s) as H.
  destruct (token_bytes 16 (world s)) as [bs w]. cbn zeta in H. rewrite H.
  eexists. split; [reflexivity|]. cbn [fst snd formId adminLink submitLink].
  repeat split.
  - unfold get_form, bind, get_state. cbn [forms]. by rewrite lookup_insert_eq.
  - intros rs Hrs. unfold get_form, bind, get_state.
    rewrite (serve_all_keeps_forms _ _ Hrs). cbn [forms].
    by rewrite lookup_insert_eq.
Qed.

(** C8.  [create_form] stores an empty list in the ledger under the new
    identifier, so [list_submissions] on it returns the empty list straight
    away, without a request; and [list_submissions] on an identifier that
    is not registered raises the 404 "form not found". *)
Theorem fresh_form_lists_nothing data s g :
  (exists resp,
     fst (create_form data s) = Ok resp
     /\ submissions (snd (create_form data s)) !! formId resp = Some []
     /\ list_submissions (formId resp) (snd (create_form data s))
        = (Ok [], snd (create_form data s)))
  /\ (ledger_consistent s -> forms s !! g = None ->
      list_submissions g s = (Raise (HTTPException 404 "form not found"), s)).
Proof.
  split.
  - pose proof (create_form_runs data s) as H.
    destruct (token_bytes 16 (world s)) as [bs w]. cbn zeta in H. rewrite H.
    eexists. split; [reflexivity|]. cbn [fst snd formId submissions].
    split; [by rewrite lookup_insert_eq|].
    unfold list_submissions, bind, get_state. cbn [submissions].
    by rewrite lookup_insert_eq.
  - intros Hc Hg. unfold list_submissions, bind, get_state.
    assert (submissions s !! g = None) as ->; [|done].
    apply not_elem_of_dom. rewrite <- Hc. by apply not_elem_of_dom.
Qed.

(** The registry and the ledger agree at start-up. *)
Lemma init_consistent w : ledger_consistent (init w).
Proof. unfold ledger_consistent, init. cbn. by rewrite !dom_empty_L. Qed.

(** One request keeps the two key sets equal. *)
Lemma serve_consistent r s :
  ledger_consistent s -> ledger_consistent (serve r s).
Proof.
  unfold ledger_consistent. intros Hc.
  destruct r as [|data|f d|f|f]; cbn [serve].
  - done.
  - pose proof (create_form_runs data s) as H.
    destruct (token_bytes 16 (world s)) as [bs w]. cbn zeta in H. rewrite H.
    cbn [snd forms submissions]. by rewrite !dom_insert_L, Hc.
  - pose proof (submit_effect f d s) as [Hf Hs]. rewrite Hf.
    destruct (fst (submit f d s)).
    + destruct Hs as (old & Hold & ->).
      rewrite dom_insert_lookup_L; [done | by rewrite Hold].
    + by rewrite Hs.
  - pose proof (list_submissions_frame f s) as [-> ->]. done.
  - by rewrite get_form_frame.
Qed.

(** Every state the process can reach is consistent. *)
Lemma reachable_consistent s : reachable s -> ledger_consistent s.
Proof.
  induction 1 as [w|r s _ IH]; [apply init_consistent|].
  by apply serve_consistent.
Qed.

(** C9.  Every request, whether its handler returns or raises, leaves the
    key set of [forms] equal to the key set of [submissions] if it found
    them equal; hence the test [formId in forms] of [submit] and
    [get_form] and the test [formId in submissions] of [list_submissions]
    give the same answer for every identifier. *)
Theorem serve_keeps_ledger_consistent r s :
  ledger_consistent s ->
  ledger_consistent (serve r s)
  /\ forall k, is_Some (forms (serve r s) !! k) <-> is_Some (submissions (serve r s) !! k).
Proof.
  intros Hc. pose proof (serve_consistent r s Hc) as Hc'.
  split; [done|]. intros k. rewrite <- !elem_of_dom. by rewrite Hc'.
Qed.

(** C10.  A submit that returns leaves the registry as it was, leaves the
    list of every other form as it was, and leaves under the form the list
    it found there followed by one record holding the blob identifier it
    returns. *)
Theorem submit_only_appends f d s r s' :
  submit f d s = (Ok r, s') ->
  forms s' = forms s
  /\ (forall g, g <> f -> submissions s' !! g = submissions s !! g)
  /\ exists old,
       submissions s !! f = Some old
       /\ submissions s' !! f = Some (old ++ [{| blobId := stored_blobId r |}]).
Proof.
  intros H. destruct (submit_returned _ _ _ _ _ H) as (Hf & old & Hold & Hs).
  split; [done|]. rewrite Hs. split.
  - intros g Hg. by rewrite lookup_insert_ne.
  - exists old. split; [done|]. by rewrite lookup_insert_eq.
Qed.

End Registry.

Section BlobStore.
Context {P : Platform}.

(** On a dict, [read_upload] follows the two paths. *)
Lemma read_upload_created m v :
  at_path (JDict m) created_path = Some v -> read_upload (JDict m) = Ok v.
Proof.
  unfold created_path, read_upload. cbn [at_path py_in py_getitem].
  destruct (m !! py "newlyCreated") as [a|]; [|done].
  destruct a as [| | | | | |ma]; try done. cbn [py_getitem].
  destruct (ma !! py "blobObject") as [b|]; [|done].
  destruct b as [| | | | | |mb]; try done. cbn [py_getitem].
  destruct (mb !! py "blobId") as [x|]; [|done].
  by intros [= ->].
Qed.

Lemma read_upload_certified m v :
  m !! py "newlyCreated" = None ->
  at_path (JDict m) certified_path = Some v -> read_upload (JDict m) = Ok v.
Proof.
  intros Hn. unfold certified_path, read_upload. cbn [at_path py_in py_getitem].
  rewrite Hn.
  destruct (m !! py "alreadyCertified") as [a|]; [|done].
  destruct a as [| | | | | |ma]; try done. cbn [py_getitem].
  destruct (ma !! py "blobId") as [x|]; [|done].
  by intros [= ->].
Qed.

Lemma read_upload_neither m :
  m !! py "newlyCreated" = None -> m !! py "alreadyCertified" = None ->
  read_upload (JDict m) = Raise (HTTPException 500 "walrus upload missing blobId").
Proof.
  intros Hn Hc. unfold read_upload. cbn [py_in]. by rewrite Hn, Hc.
Qed.

Lemma json_body_parsed resp j : json_body resp = Some j -> json_call resp = Parsed j.
Proof. unfold json_body. destruct (json_call resp); by intros [= ->]. Qed.

(** What an upload gives when the publisher answers 200 with body [j]. *)
Lemma walrus_upload_200_sent p s data resp w j :
  encode_utf8 p = Some data ->
  requests_put upload_url data (world s) = (Returned resp, w) ->
  status_code resp = 200 ->
  json_body resp = Some j ->
  walrus_upload p s
  = finish (if falls_through j then Some (WalrusUploadMissingBlobId j) else None)
      (read_upload j) (after_call s w (PUT upload_url data)).
Proof.
  intros He Hp Hst Hj. rewrite (walrus_upload_sent _ _ _ _ _ He Hp).
  unfold upload_reply, upload_log. by rewrite Hst, (json_body_parsed _ _ Hj).
Qed.

(** The same when control does not reach line 71: nothing is printed. *)
Lemma walrus_upload_200 p s data resp w j :
  encode_utf8 p = Some data ->
  requests_put upload_url data (world s) = (Returned resp, w) ->
  status_code resp = 200 ->
  json_body resp = Some j ->
  falls_through j = false ->
  walrus_upload p s = (read_upload j, after_call s w (PUT upload_url data)).
Proof.
  intros He Hp Hst Hj Hft.
  by rewrite (walrus_upload_200_sent _ _ _ _ _ _ He Hp Hst Hj), Hft.
Qed.

Lemma walrus_upload_200_ok p s data resp w j v :
  encode_utf8 p = Some data ->
  requests_put upload_url data (world s) = (Returned resp, w) ->
  status_code resp = 200 ->
  json_body resp = Some j ->
  read_upload j = Ok v ->
  walrus_upload p s = (Ok v, after_call s w (PUT upload_url data)).
Proof.
  intros He Hp Hst Hj Hv.
  rewrite (walrus_upload_200 _ _ _ _ _ _ He Hp Hst Hj (read_upload_ok_passes _ _ Hv)).
  by rewrite Hv.
Qed.

(** An upload that returned: the request it sent and the reply it read. *)
Lemma walrus_upload_ok p s v s' :
  walrus_upload p s = (Ok v, s') ->
  exists data o w,
    encode_utf8 p = Some data
    /\ requests_put upload_url data (world s) = (o, w)
    /\ upload_reply o = Ok v
    /\ s' = after_call s w (PUT upload_url data).
Proof.
  destruct (encode_utf8 p) as [data|] eqn:He.
  - destruct (requests_put upload_url data (world s)) as [o w] eqn:Hp.
    rewrite (walrus_upload_sent _ _ _ _ _ He Hp). intros H.
    assert (upload_reply o = Ok v) as Hr.
    { destruct (finish_result (upload_log o) (upload_reply o)
                  (after_call s w (PUT upload_url data))) as [Hr|(l & pe & _ & _ & Hr)];
        rewrite H in Hr; cbn [fst] in Hr; [done | discriminate]. }
    rewrite (upload_reply_ok_quiet _ _ Hr), finish_none in H.
    injection H as _ <-. by exists data, o, w.
  - by rewrite (walrus_upload_unencodable _ _ He).
Qed.

Lemma read_upload_scalar j : is_scalar j = true -> read_upload j = Raise TypeError.
Proof. by destruct j. Qed.

Lemma falls_through_scalar j : is_scalar j = true -> falls_through j = false.
Proof. by destruct j. Qed.

Lemma scalar_no_key j key : is_scalar j = true -> ~ has_key j key.
Proof. destruct j; cbn; intros Hsc Hk; done. Qed.

Lemma falls_through_read j :
  falls_through j = true ->
  read_upload j = Raise (HTTPException 500 "walrus upload missing blobId").
Proof.
  unfold falls_through, read_upload.
  destruct (py_in (py "newlyCreated") j) as [[]|]; [done| |done].
  by destruct (py_in (py "alreadyCertified") j) as [[]|].
Qed.

(** C1.  When the publisher answers 200 and the body parses to [j]:
    - if [j] is an object in which newlyCreated.blobObject.blobId leads to
      a value, the upload returns that value;
    - if [j] is an object without the key "newlyCreated" in which
      alreadyCertified.blobId leads to a value, the upload returns that
      value;
    - if both membership tests of lines 66 and 68 are false (an object with
      neither key, an array or a string in which neither name occurs) and
      the line of line 71 is printed, the upload raises the 500
      "walrus upload missing blobId", the specification's
      [StoreProtocolError];
    - but if [j] is [None], a boolean or a number, which has neither key,
      the test of line 66 itself raises: the upload raises [TypeError],
      which is none of the store errors, where the specification asks for
      [StoreProtocolError]. *)
Theorem walrus_upload_200_body p s data resp w j :
  encode_utf8 p = Some data ->
  requests_put upload_url data (world s) = (Returned resp, w) ->
  status_code resp = 200 ->
  json_body resp = Some j ->
  (forall m v, j = JDict m -> at_path j created_path = Some v ->
               fst (walrus_upload p s) = Ok v)
  /\ (forall m v, j = JDict m -> m !! py "newlyCreated" = None ->
                  at_path j certified_path = Some v ->
                  fst (walrus_upload p s) = Ok v)
  /\ (py_in (py "newlyCreated") j = Ok false ->
      py_in (py "alreadyCertified") j = Ok false ->
      fst (print_line (WalrusUploadMissingBlobId j) w) = None ->
      fst (walrus_upload p s)
      = Raise (HTTPException 500 "walrus upload missing blobId")
      /\ classify (HTTPException 500 "walrus upload missing blobId")
         = Some StoreProtocolError)
  /\ (is_scalar j = true ->
      ~ has_key j (py "newlyCreated") /\ ~ has_key j (py "alreadyCertified")
      /\ fst (walrus_upload p s) = Raise TypeError
      /\ classify TypeError = None).
Proof.
  intros He Hp Hst Hj. split; [|split; [|split]].
  - intros m v -> Hv.
    by rewrite (walrus_upload_200_ok _ _ _ _ _ _ _ He Hp Hst Hj (read_upload_created _ _ Hv)).
  - intros m v -> Hn Hv.
    by rewrite (walrus_upload_200_ok _ _ _ _ _ _ _ He Hp Hst Hj
                  (read_upload_certified _ _ Hn Hv)).
  - intros Hn Hc Hprint. split; [|done].
    assert (falls_through j = true) as Hft by (unfold falls_through; by rewrite Hn, Hc).
    rewrite (walrus_upload_200_sent _ _ _ _ _ _ He Hp Hst Hj), Hft.
    rewrite finish_printed by done. by apply falls_through_read.
  - intros Hsc. split; [by apply scalar_no_key|]. split; [by apply scalar_no_key|].
    split; [|done].
    rewrite (walrus_upload_200 _ _ _ _ _ _ He Hp Hst Hj (falls_through_scalar _ Hsc)).
    cbn [fst]. by apply read_upload_scalar.
Qed.

(** C3.  When the aggregator answers 200, the fetch returns the body
    decoded as UTF-8 if it decodes; if it does not, the fetch raises
    [UnicodeDecodeError], which is none of the store errors: no
    [HTTPException] is raised for it. *)
Theorem walrus_fetch_200 blob_id s resp w :
  requests_get (blob_url blob_id) (world s) = (Returned resp, w) ->
  status_code resp = 200 ->
  (forall text, decode_utf8 (content resp) = Some text ->
                fst (walrus_fetch blob_id s) = Ok text)
  /\ (decode_utf8 (content resp) = None ->
      fst (walrus_fetch blob_id s) = Raise UnicodeDecodeError
      /\ classify UnicodeDecodeError = None).
Proof.
  intros Hg Hst. rewrite (walrus_fetch_ok _ _ _ _ Hg Hst). cbn [fst].
  split; [by intros text -> | by intros ->].
Qed.

(** C2.  On a registered form, in a consistent state:
    - if the upload returns a blob identifier, the submit returns, and the
      list of the form is the old list followed by one record with that
      identifier;
    - if the upload raises, the submit raises the same exception and the
      ledger and the registry are as they were;
    - a status other than 200, once its line is printed, gives the 500
      "walrus upload failed", and a 200 whose body makes both membership
      tests false, once its line is printed, gives the 500
      "walrus upload missing blobId"; both are store errors;
    - but a 200 whose body is JSON [null], a boolean or a number, which is
      a JSON body without either key, makes the submit raise [TypeError],
      which is no store error, where the specification asks for one; the
      ledger is as it was in that case too. *)
Theorem submit_appends_iff_upload_returns f d s :
  ledger_consistent s ->
  is_Some (forms s !! f) ->
  (forall blob_id s1,
     walrus_upload (encrypted d) s = (Ok blob_id, s1) ->
     fst (submit f d s) = Ok {| status := py "stored"; stored_blobId := blob_id |}
     /\ exists old,
          submissions s !! f = Some old
          /\ submissions (snd (submit f d s))
             = <[f := old ++ [{| blobId := blob_id |}]]> (submissions s))
  /\ (forall e s1,
        walrus_upload (encrypted d) s = (Raise e, s1) ->
        submit f d s = (Raise e, s1)
        /\ submissions s1 = submissions s /\ forms s1 = forms s)
  /\ (forall data resp w,
        encode_utf8 (encrypted d) = Some data ->
        requests_put upload_url data (world s) = (Returned resp, w) ->
        (status_code resp <> 200 ->
         fst (print_line (WalrusUploadError resp) w) = None ->
         fst (submit f d s) = Raise (HTTPException 500 "walrus upload failed")
         /\ store_related (HTTPException 500 "walrus upload failed")
         /\ submissions (snd (submit f d s)) = submissions s)
        /\ (forall j,
              status_code resp = 200 ->
              json_body resp = Some j ->
              py_in (py "newlyCreated") j = Ok false ->
              py_in (py "alreadyCertified") j = Ok false ->
              fst (print_line (WalrusUploadMissingBlobId j) w) = None ->
              fst (submit f d s)
              = Raise (HTTPException 500 "walrus upload missing blobId")
              /\ store_related (HTTPException 500 "walrus upload missing blobId")
              /\ submissions (snd (submit f d s)) = submissions s)
        /\ (forall j,
              status_code resp = 200 ->
              json_body resp = Some j ->
              is_scalar j = true ->
              ~ has_key j (py "newlyCreated") /\ ~ has_key j (py "alreadyCertified")
              /\ fst (submit f d s) = Raise TypeError
              /\ ~ store_related TypeError
              /\ submissions (snd (submit f d s)) = submissions s)).
Proof.
  intros Hc [x Hf]. rewrite (submit_registered _ _ _ _ Hf).
  assert (is_Some (submissions s !! f)) as [old Hold].
  { apply elem_of_dom. rewrite <- Hc. apply elem_of_dom. by exists x. }
  pose proof (walrus_upload_frame (encrypted d) s) as [Hfs Hss].
  split; [|split].
  - intros blob_id s1 Hu. rewrite Hu in *. cbn [snd] in *.
    rewrite Hss, Hold. cbn [fst snd]. split; [done|].
    exists old. split; [done|]. unfold appended, set_submissions. cbn.
    by rewrite Hss.
  - intros e s1 Hu. rewrite Hu in *. done.
  - intros data resp w He Hp.
    assert (forall e, fst (walrus_upload (encrypted d) s) = Raise e ->
              fst (let '(r, s1) := walrus_upload (encrypted d) s in
                   match r with
                   | Ok blob_id =>
                       match submissions s1 !! f with
                       | Some old0 =>
                           (Ok {| status := py "stored"; stored_blobId := blob_id |},
                            appended f old0 blob_id s1)
                       | None => (Raise (KeyError f), s1)
                       end
                   | Raise e0 => (Raise e0, s1)
                   end) = Raise e
              /\ submissions
                   (snd (let '(r, s1) := walrus_upload (encrypted d) s in
                         match r with
                         | Ok blob_id =>
                             match submissions s1 !! f with
                             | Some old0 =>
                                 (Ok {| status := py "stored"; stored_blobId := blob_id |},
                                  appended f old0 blob_id s1)
                             | None => (Raise (KeyError f), s1)
                             end
                         | Raise e0 => (Raise e0, s1)
                         end)) = submissions s) as Hraise.
    { intros e Hu. destruct (walrus_upload (encrypted d) s) as [[v|e0] s1];
        cbn [fst snd] in *; [done|]. by injection Hu as ->. }
    split; [|split].
    + intros Hst Hprint. apply Z.eqb_neq in Hst.
      destruct (Hraise (HTTPException 500 "walrus upload failed")) as [Hr Hs].
      { rewrite (walrus_upload_sent _ _ _ _ _ He Hp).
        unfold upload_log, upload_reply. rewrite Hst. by apply finish_printed. }
      split; [done|]. split; [|done]. right. by left.
    + intros j Hst Hj Hn Hcert Hprint.
      assert (falls_through j = true) as Hft
        by (unfold falls_through; by rewrite Hn, Hcert).
      destruct (Hraise (HTTPException 500 "walrus upload missing blobId")) as [Hr Hs].
      { rewrite (walrus_upload_200_sent _ _ _ _ _ _ He Hp Hst Hj), Hft.
        rewrite finish_printed by done. by apply falls_through_read. }
      split; [done|]. split; [|done]. right. by right.
    + intros j Hst Hj Hsc.
      destruct (Hraise TypeError) as [Hr Hs].
      { rewrite (walrus_upload_200 _ _ _ _ _ _ He Hp Hst Hj (falls_through_scalar _ Hsc)).
        cbn [fst]. by apply read_upload_scalar. }
      split; [by apply scalar_no_key|]. split; [by apply scalar_no_key|].
      split; [done|].
      split; [|done]. intros [H|[H|H]]; discriminate.
Qed.

(** C4.  When the publisher answers 200 with the alreadyCertified variant
    (an object without "newlyCreated" in which alreadyCertified.blobId
    leads to [v]), the upload returns [v]; a submit on a registered form
    then returns status "stored" with [v] and appends the record of [v] to
    the list of the form; and result and state are those the same submit
    has when the publisher answers with the newlyCreated variant of [v]. *)
Theorem already_certified_is_success f d s data resp w m v :
  ledger_consistent s ->
  is_Some (forms s !! f) ->
  encode_utf8 (encrypted d) = Some data ->
  requests_put upload_url data (world s) = (Returned resp, w) ->
  status_code resp = 200 ->
  json_body resp = Some (JDict m) ->
  m !! py "newlyCreated" = None ->
  at_path (JDict m) certified_path = Some v ->
  fst (walrus_upload (encrypted d) s) = Ok v
  /\ (exists old,
        submissions s !! f = Some old
        /\ submit f d s
           = (Ok {| status := py "stored"; stored_blobId := v |},
              appended f old v (after_call s w (PUT upload_url data))))
  /\ (forall w0 resp0 m0,
        requests_put upload_url data w0 = (Returned resp0, w) ->
        status_code resp0 = 200 ->
        json_body resp0 = Some (JDict m0) ->
        at_path (JDict m0) created_path = Some v ->
        submit f d (State (forms s) (submissions s) w0 (wire s)) = submit f d s).
Proof.
  intros Hc [x Hf] He Hp Hst Hj Hn Hv.
  assert (is_Some (submissions s !! f)) as [old Hold].
  { apply elem_of_dom. rewrite <- Hc. apply elem_of_dom. by exists x. }
  assert (submit f d s
          = (Ok {| status := py "stored"; stored_blobId := v |},
             appended f old v (after_call s w (PUT upload_url data)))) as Hsub.
  { rewrite (submit_registered _ _ _ _ Hf).
    rewrite (walrus_upload_200_ok _ _ _ _ _ _ _ He Hp Hst Hj
               (read_upload_certified _ _ Hn Hv)).
    cbn [after_call submissions]. by rewrite Hold. }
  split; [|split].
  - by rewrite (walrus_upload_200_ok _ _ _ _ _ _ _ He Hp Hst Hj
                  (read_upload_certified _ _ Hn Hv)).
  - by exists old.
  - intros w0 resp0 m0 Hp0 Hst0 Hj0 Hv0. rewrite Hsub.
    set (s0 := State (forms s) (submissions s) w0 (wire s)).
    rewrite (submit_registered f d s0 x Hf).
    rewrite (walrus_upload_200_ok (encrypted d) s0 data resp0 w (JDict m0) v
               He Hp0 Hst0 Hj0 (read_upload_created _ _ Hv0)).
    cbn [after_call submissions s0]. by rewrite Hold.
Qed.

(** A submit that returned has sent exactly one request: the PUT of the
    UTF-8 bytes of the submitted text to the publisher. *)
Lemma submit_sends_payload f d s r s' :
  submit f d s = (Ok r, s') ->
  exists data,
    encode_utf8 (encrypted d) = Some data
    /\ wire s' = wire s ++ [PUT upload_url data].
Proof.
  intros H. destruct (forms s !! f) as [x|] eqn:Hf.
  - rewrite (submit_registered _ _ _ _ Hf) in H.
    destruct (walrus_upload (encrypted d) s) as [[v|e] s1] eqn:Hu; [|done].
    destruct (walrus_upload_ok _ _ _ _ Hu) as (data & o & w & He & _ & _ & ->).
    exists data. split; [done|]. cbn [after_call submissions] in H.
    destruct (submissions s !! f); [|done].
    by injection H as _ <-.
  - by rewrite (submit_unregistered _ _ _ Hf) in H.
Qed.

(** C5.  On a form whose list is empty, after a submit of the text [p1]
    that returned, the bytes uploaded are the UTF-8 bytes of [p1], and
    - if the aggregator returns these bytes for the blob identifier,
      [list_submissions] returns exactly one entry, whose [encrypted]
      field is [p1];
    - after a second submit, of [p2], that returned, if the aggregator
      returns for the two blob identifiers the bytes uploaded for them,
      [list_submissions] returns two entries, in the order of the submits,
      whose [encrypted] fields are [p1] and [p2]. *)
Theorem submit_then_list_round_trip f p1 s r1 s1 :
  submissions s !! f = Some [] ->
  submit f {| encrypted := p1 |} s = (Ok r1, s1) ->
  (exists data, encode_utf8 p1 = Some data
                /\ wire s1 = wire s ++ [PUT upload_url data])
  /\ (aggregator_serves (world s1) [stored_blobId r1] = [encode_utf8 p1] ->
      fst (list_submissions f s1)
      = Ok [ {| entry_blobId := stored_blobId r1; entry_encrypted := p1 |} ])
  /\ (forall p2 r2 s2,
        submit f {| encrypted := p2 |} s1 = (Ok r2, s2) ->
        aggregator_serves (world s2) [stored_blobId r1; stored_blobId r2]
        = [encode_utf8 p1; encode_utf8 p2] ->
        fst (list_submissions f s2)
        = Ok [ {| entry_blobId := stored_blobId r1; entry_encrypted := p1 |};
               {| entry_blobId := stored_blobId r2; entry_encrypted := p2 |} ]).
Proof.
  intros Hempty H1.
  destruct (submit_sends_payload _ _ _ _ _ H1) as (data1 & He1 & Hw1).
  cbn [encrypted] in He1.
  destruct (submit_returned _ _ _ _ _ H1) as (_ & old1 & Ho1 & Hn1).
  rewrite Hempty in Ho1. injection Ho1 as <-. cbn [app] in Hn1.
  apply (f_equal (fun m => m !! f)) in Hn1. rewrite lookup_insert_eq in Hn1.
  split; [by exists data1|]. split.
  - intros Hserve. unfold list_submissions, bind, get_state. rewrite Hn1.
    apply (fetch_items_serves [{| blobId := stored_blobId r1 |}] [p1] []);
      [done|]. repeat constructor. by exists data1.
  - intros p2 r2 s2 H2 Hserve.
    destruct (submit_sends_payload _ _ _ _ _ H2) as (data2 & He2 & _).
    cbn [encrypted] in He2.
    destruct (submit_returned _ _ _ _ _ H2) as (_ & old2 & Ho2 & Hn2).
    rewrite Hn1 in Ho2. injection Ho2 as <-. cbn [app] in Hn2.
    apply (f_equal (fun m => m !! f)) in Hn2. rewrite lookup_insert_eq in Hn2.
    unfold list_submissions, bind, get_state. rewrite Hn2.
    apply (fetch_items_serves
             [{| blobId := stored_blobId r1 |}; {| blobId := stored_blobId r2 |}]
             [p1; p2] []); [done|].
    repeat constructor; [by exists data1 | by exists data2].
Qed.

End BlobStore.

(** ** The depot returns what was uploaded *)

Lemma byte_val_range b : 0 <= byte_val b < 256.
Proof. unfold byte_val. pose proof (Byte.to_N_bounded b). lia. Qed.

Lemma byte_val_inj b1 b2 : byte_val b1 = byte_val b2 -> b1 = b2.
Proof.
  unfold byte_val. intros H. apply N2Z.inj in H.
  pose proof (Byte.of_to_N b1) as H1. rewrite H in H1.
  rewrite Byte.of_to_N in H1. by injection H1.
Qed.

Lemma hex_digit_inj m n :
  0 <= m < 16 -> 0 <= n < 16 -> hex_digit m = hex_digit n -> m = n.
Proof.
  unfold hex_digit. intros Hm Hn.
  destruct (Z.ltb_spec m 10), (Z.ltb_spec n 10); lia.
Qed.

Lemma hexlify_inj bs1 bs2 : hexlify bs1 = hexlify bs2 -> bs1 = bs2.
Proof.
  revert bs2. induction bs1 as [|b1 bs1 IH]; intros [|b2 bs2] H; try done.
  cbn in H. injection H as Hhi Hlo Hrest.
  pose proof (byte_val_range b1). pose proof (byte_val_range b2).
  apply hex_digit_inj in Hhi; [|by_range..].
  apply hex_digit_inj in Hlo; [|by_range..].
  f_equal; [|by apply IH].
  apply byte_val_inj. by_range.
Qed.

Lemma strip_prefix_app prefix s : strip_prefix prefix (prefix ++ s) = Some s.
Proof.
  induction prefix as [|a prefix IH]; [done|].
  cbn. by rewrite bool_decide_eq_true_2.
Qed.

Lemma read_upload_variant blob_id fresh :
  read_upload (variant_body blob_id fresh) = Ok (JStr blob_id).
Proof.
  destruct fresh; unfold variant_body.
  - apply read_upload_created. unfold created_path, created_body. cbn [at_path].
    by rewrite !lookup_singleton_eq.
  - apply read_upload_certified; unfold certified_path, certified_body.
    + by apply lookup_singleton_ne.
    + cbn [at_path]. by rewrite !lookup_singleton_eq.
Qed.

(** A submit to a registered form of the depot returns, whether the blob
    is new or already there, and the depot then holds the uploaded bytes
    under the returned name. *)
Lemma depot_submit (s : @state depot_world) f x old p data :
  honest (world s) ->
  forms s !! f = Some x ->
  submissions s !! f = Some old ->
  encode_utf8 p = Some data ->
  exists s',
    @submit depot_world f {| encrypted := p |} s
    = (Ok {| status := py "stored"; stored_blobId := JStr (hexlify data) |}, s')
    /\ honest (world s')
    /\ blobs (world s') !! hexlify data = Some data
    /\ (forall blob_id d, blobs (world s) !! blob_id = Some d ->
                          blobs (world s') !! blob_id = Some d).
Proof.
  intros Hh Hf Hold He.
  rewrite (submit_registered _ _ _ _ Hf). cbn [encrypted].
  destruct (@requests_put depot_world upload_url data (world s)) as [o w] eqn:Hp.
  pose proof Hp as Hp'.
  cbn [requests_put depot_world] in Hp'. unfold depot_put in Hp'.
  rewrite bool_decide_eq_true_2 in Hp' by done.
  destruct (blobs (world s) !! hexlify data) as [data'|] eqn:Hb;
    injection Hp' as <- <-;
    rewrite (walrus_upload_200_ok _ _ _ _ _ _ _ He Hp eq_refl eq_refl
               (read_upload_variant _ _));
    cbn [after_call submissions]; rewrite Hold;
    eexists; (split; [reflexivity|]);
    cbn [appended set_submissions after_call world forms submissions blobs].
  - pose proof (Hh _ _ Hb) as Heq. apply hexlify_inj in Heq. subst data'.
    by repeat split.
  - repeat split.
    + intros blob_id d. cbn [blobs].
      destruct (decide (blob_id = hexlify data)) as [->|Hne].
      * rewrite lookup_insert_eq. by intros [= ->].
      * rewrite lookup_insert_ne by done. apply Hh.
    + by rewrite lookup_insert_eq.
    + intros blob_id d Hd. destruct (decide (blob_id = hexlify data)) as [->|Hne].
      * by rewrite Hd in Hb.
      * by rewrite lookup_insert_ne.
Qed.

Lemma depot_serves (w : depot) blob_id data :
  blobs w !! blob_id = Some data ->
  @requests_get depot_world (@blob_url depot_world (JStr blob_id)) w
  = (Returned (Response 200 data None), w).
Proof.
  intros Hb. cbn [requests_get depot_world]. unfold depot_get, blob_url.
  cbn [format_value]. rewrite app_assoc, strip_prefix_app. by rewrite Hb.
Qed.

(** On the depot, two texts submitted to a form with an empty list come
    back from [list_submissions] unchanged and in order, whatever the
    texts (also when they are equal, so that the second upload is answered
    alreadyCertified). *)
Lemma depot_round_trip (s : @state depot_world) f x p1 p2 :
  honest (world s) ->
  forms s !! f = Some x ->
  submissions s !! f = Some [] ->
  is_Some (encode_utf8 p1) ->
  is_Some (encode_utf8 p2) ->
  exists r1 s1 r2 s2,
    @submit depot_world f {| encrypted := p1 |} s = (Ok r1, s1)
    /\ @submit depot_world f {| encrypted := p2 |} s1 = (Ok r2, s2)
    /\ fst (@list_submissions depot_world f s2)
       = Ok [ {| entry_blobId := stored_blobId r1; entry_encrypted := p1 |};
              {| entry_blobId := stored_blobId r2; entry_encrypted := p2 |} ].
Proof.
  intros Hh Hf Hempty [data1 He1] [data2 He2].
  destruct (depot_submit s f x [] p1 data1 Hh Hf Hempty He1)
    as (s1 & H1 & Hh1 & Hb1 & _).
  destruct (submit_returned _ _ _ _ _ H1) as (Hf1 & old1 & Ho1 & Hs1).
  rewrite Hempty in Ho1. injection Ho1 as <-.
  assert (submissions s1 !! f = Some [{| blobId := JStr (hexlify data1) |}]) as Hl1.
  { rewrite Hs1. by rewrite lookup_insert_eq. }
  rewrite <- Hf1 in Hf.
  destruct (depot_submit s1 f x _ p2 data2 Hh1 Hf Hl1 He2)
    as (s2 & H2 & Hh2 & Hb2 & Hkeep).
  eexists _, s1, _, s2. split; [exact H1|]. split; [exact H2|].
  destruct (submit_returned _ _ _ _ _ H2) as (_ & old2 & Ho2 & Hs2).
  rewrite Hl1 in Ho2. injection Ho2 as <-.
  unfold list_submissions, bind, get_state. rewrite Hs2, lookup_insert_eq.
  cbn [stored_blobId app].
  apply (fetch_items_serves
           [{| blobId := JStr (hexlify data1) |}; {| blobId := JStr (hexlify data2) |}]
           [p1; p2] []).
  - cbn [fmap list_fmap blobId aggregator_serves].
    rewrite (depot_serves _ _ _ (Hkeep _ _ Hb1)).
    rewrite (depot_serves _ _ _ Hb2).
    cbn [body_if_200 status_code content]. change (200 =? 200) with true.
    by rewrite He1, He2.
  - repeat constructor; by eexists.
Qed.

(* ===================================================================== *)
(** * The statements at concrete inputs *)
(* ===================================================================== *)

Ltac run := vm_compute; reflexivity.

(** Bodies of a 200 and what the upload does with them. *)
Example upload_null_body :
  fst (walrus_upload (py "hello") (one_form [ok_json JNull])) = Raise TypeError.
Proof. vm_compute. reflexivity. Qed.

Example upload_number_body :
  fst (walrus_upload (py "hello") (one_form [ok_json (JInt 42)])) = Raise TypeError.
Proof. vm_compute. reflexivity. Qed.

Example upload_string_body :
  fst (walrus_upload (py "hello") (one_form [ok_json (JStr (py "newlyCreated"))]))
  = Raise TypeError.
Proof. vm_compute. reflexivity. Qed.

Example upload_created_without_blob_object :
  fst (walrus_upload (py "hello") (one_form [ok_json (JDict {[ py "newlyCreated" := JDict ∅ ]})]))
  = Raise (KeyError (py "blobObject")).
Proof. vm_compute. reflexivity. Qed.

Example upload_empty_list_body :
  fst (walrus_upload (py "hello") (one_form [ok_json (JList [])]))
  = Raise (HTTPException 500 "walrus upload missing blobId").
Proof. vm_compute. reflexivity. Qed.

Example upload_surrogate_string_body :
  fst (walrus_upload (py "hello") (one_form_terminal [ok_json (JStr [55296])]))
  = Raise UnicodeEncodeError.
Proof. vm_compute. reflexivity. Qed.

Example upload_too_deep_body :
  fst (walrus_upload (py "hello") (one_form [Returned (MkResponse 200 [] TooDeep)]))
  = Raise RecursionError.
Proof. vm_compute. reflexivity. Qed.

(** C1 on four bodies: [null], where the upload raises [TypeError]; the
    newlyCreated variant; the alreadyCertified variant; an object with
    neither key. *)
Lemma walrus_upload_200_body_witness :
  (~ has_key JNull (py "newlyCreated") /\ ~ has_key JNull (py "alreadyCertified")
   /\ fst (walrus_upload (py "hello") (one_form [ok_json JNull])) = Raise TypeError
   /\ classify TypeError = None)
  /\ fst (walrus_upload (py "hello") (one_form [ok_json (JDict (created_body (py "b1")))]))
     = Ok (JStr (py "b1"))
  /\ fst (walrus_upload (py "hello") (one_form [ok_json (JDict (certified_body (py "b1")))]))
     = Ok (JStr (py "b1"))
  /\ fst (walrus_upload (py "hello") (one_form [ok_json (JDict error_body)]))
     = Raise (HTTPException 500 "walrus upload missing blobId").
Proof.
  split; [|split; [|split]].
  - apply (proj2 (proj2 (proj2 (@walrus_upload_200_body scripted (py "hello")
                    (one_form [ok_json JNull])
                    hello_bytes (Response 200 [] (Some JNull)) (Script [] []) JNull
                    ltac:(run) ltac:(run) ltac:(run) ltac:(run))))).
    run.
  - apply (proj1 (@walrus_upload_200_body scripted (py "hello")
                    (one_form [ok_json (JDict (created_body (py "b1")))])
                    hello_bytes (Response 200 [] (Some (JDict (created_body (py "b1")))))
                    (Script [] []) (JDict (created_body (py "b1")))
                    ltac:(run) ltac:(run) ltac:(run) ltac:(run))
             (created_body (py "b1")));
      run.
  - apply (proj1 (proj2 (@walrus_upload_200_body scripted (py "hello")
                    (one_form [ok_json (JDict (certified_body (py "b1")))])
                    hello_bytes (Response 200 [] (Some (JDict (certified_body (py "b1")))))
                    (Script [] []) (JDict (certified_body (py "b1")))
                    ltac:(run) ltac:(run) ltac:(run) ltac:(run)))
             (certified_body (py "b1")));
      run.
  - apply (proj1 (proj2 (proj2 (@walrus_upload_200_body scripted (py "hello")
                    (one_form [ok_json (JDict error_body)])
                    hello_bytes (Response 200 [] (Some (JDict error_body)))
                    (Script [] []) (JDict error_body)
                    ltac:(run) ltac:(run) ltac:(run) ltac:(run)))));
      run.
Defined.

(** C2 on a registered form: the publisher answers 200 with [null] (the
    submit raises [TypeError], nothing appended), accepts (the record is
    appended), answers 500 (nothing appended), answers 200 with an object
    that has neither key (nothing appended). *)
Lemma submit_appends_iff_upload_returns_witness :
  (~ has_key JNull (py "newlyCreated") /\ ~ has_key JNull (py "alreadyCertified")
   /\ fst (submit (py "f1") hello (one_form [ok_json JNull])) = Raise TypeError
   /\ ~ store_related TypeError
   /\ submissions (snd (submit (py "f1") hello (one_form [ok_json JNull])))
      = submissions (one_form [ok_json JNull]))
  /\ (fst (submit (py "f1") hello (one_form [ok_json (JDict (created_body (py "b1")))]))
      = Ok {| status := py "stored"; stored_blobId := JStr (py "b1") |}
      /\ exists old,
           submissions (one_form [ok_json (JDict (created_body (py "b1")))]) !! py "f1"
           = Some old
           /\ submissions
                (snd (submit (py "f1") hello
                        (one_form [ok_json (JDict (created_body (py "b1")))])))
              = <[py "f1" := old ++ [{| blobId := JStr (py "b1") |}]]>
                  (submissions (one_form [ok_json (JDict (created_body (py "b1")))])))
  /\ (fst (submit (py "f1") hello (one_form [Returned (Response 500 [] None)]))
      = Raise (HTTPException 500 "walrus upload failed")
      /\ store_related (HTTPException 500 "walrus upload failed")
      /\ submissions (snd (submit (py "f1") hello
                             (one_form [Returned (Response 500 [] None)])))
         = submissions (one_form [Returned (Response 500 [] None)]))
  /\ (fst (submit (py "f1") hello (one_form [ok_json (JDict error_body)]))
      = Raise (HTTPException 500 "walrus upload missing blobId")
      /\ store_related (HTTPException 500 "walrus upload missing blobId")
      /\ submissions (snd (submit (py "f1") hello (one_form [ok_json (JDict error_body)])))
         = submissions (one_form [ok_json (JDict error_body)])).
Proof.
  split; [|split; [|split]].
  - apply (proj2 (proj2 (proj2 (proj2 (@submit_appends_iff_upload_returns scripted
                    (py "f1") hello (one_form [ok_json JNull])
                    ltac:(run) ltac:(eexists; run)))
             hello_bytes (Response 200 [] (Some JNull)) (Script [] [])
             ltac:(run) ltac:(run)))
           JNull); run.
  - apply (proj1 (@submit_appends_iff_upload_returns scripted (py "f1") hello
                    (one_form [ok_json (JDict (created_body (py "b1")))])
                    ltac:(run) ltac:(eexists; run))
             (JStr (py "b1"))
             (snd (walrus_upload (py "hello")
                     (one_form [ok_json (JDict (created_body (py "b1")))])))).
    run.
  - apply (proj1 (proj2 (proj2 (@submit_appends_iff_upload_returns scripted (py "f1") hello
                    (one_form [Returned (Response 500 [] None)])
                    ltac:(run) ltac:(eexists; run)))
             hello_bytes (Response 500 [] None) (Script [] [])
             ltac:(run) ltac:(run))); [discriminate | run].
  - apply (proj1 (proj2 (proj2 (proj2 (@submit_appends_iff_upload_returns scripted
                    (py "f1") hello (one_form [ok_json (JDict error_body)])
                    ltac:(run) ltac:(eexists; run)))
             hello_bytes (Response 200 [] (Some (JDict error_body))) (Script [] [])
             ltac:(run) ltac:(run)))
           (JDict error_body)); run.
Defined.

(** C3 on two bodies: valid UTF-8 is returned as text, and the single
    byte 0xFF, which no UTF-8 text contains, makes the fetch raise
    [UnicodeDecodeError]. *)
Lemma walrus_fetch_200_witness :
  fst (walrus_fetch (JStr (py "b1")) (one_form [ok_raw hello_bytes])) = Ok (py "hello")
  /\ fst (walrus_fetch (JStr (py "b1")) (one_form [ok_raw [xff]])) = Raise UnicodeDecodeError
  /\ classify UnicodeDecodeError = None.
Proof.
  split.
  - apply (proj1 (@walrus_fetch_200 scripted (JStr (py "b1"))
                    (one_form [ok_raw hello_bytes]) (Response 200 hello_bytes None)
                    (Script [] []) ltac:(run) ltac:(run))).
    run.
  - apply (proj2 (@walrus_fetch_200 scripted (JStr (py "b1"))
                    (one_form [ok_raw [xff]]) (Response 200 [xff] None)
                    (Script [] []) ltac:(run) ltac:(run))).
    run.
Defined.

(** C4 on a registered form when the publisher answers alreadyCertified. *)
Lemma already_certified_is_success_witness :
  fst (walrus_upload (py "hello") (one_form [ok_json (JDict (certified_body (py "b1")))]))
  = Ok (JStr (py "b1"))
  /\ fst (submit (py "f1") hello (one_form [ok_json (JDict (certified_body (py "b1")))]))
     = Ok {| status := py "stored"; stored_blobId := JStr (py "b1") |}
  /\ submissions
       (snd (submit (py "f1") hello (one_form [ok_json (JDict (certified_body (py "b1")))])))
     !! py "f1" = Some [{| blobId := JStr (py "b1") |}]
  /\ submit (py "f1") hello (one_form [ok_json (JDict (created_body (py "b1")))])
     = submit (py "f1") hello (one_form [ok_json (JDict (certified_body (py "b1")))]).
Proof.
  pose proof (@already_certified_is_success scripted (py "f1") hello
                (one_form [ok_json (JDict (certified_body (py "b1")))])
                hello_bytes (Response 200 [] (Some (JDict (certified_body (py "b1")))))
                (Script [] []) (certified_body (py "b1")) (JStr (py "b1"))
                ltac:(run) ltac:(eexists; run) ltac:(run) ltac:(run)
                ltac:(run) ltac:(run) ltac:(run) ltac:(run))
    as (Hup & (old & Hold & Hsub) & Hsame).
  split; [exact Hup|]. split; [by rewrite Hsub|]. split.
  - rewrite Hsub. injection Hold as <-. run.
  - apply (Hsame (Script [ok_json (JDict (created_body (py "b1")))] [])
             (Response 200 [] (Some (JDict (created_body (py "b1")))))
             (created_body (py "b1"))); run.
Defined.

(** C5 on the depot: two texts, the second with characters of two, three
    and four UTF-8 bytes, submitted to a fresh form and listed. *)
Lemma submit_then_list_round_trip_witness :
  let p1 := py "hello" in
  let p2 := [233; 8364; 128512] in
  let s1 := snd (@submit depot_world depot_form_id {| encrypted := p1 |} depot_ready) in
  let s2 := snd (@submit depot_world depot_form_id {| encrypted := p2 |} s1) in
  fst (@list_submissions depot_world depot_form_id s1)
  = Ok [ {| entry_blobId := JStr (hexlify hello_bytes); entry_encrypted := p1 |} ]
  /\ fst (@list_submissions depot_world depot_form_id s2)
     = Ok [ {| entry_blobId := JStr (hexlify hello_bytes); entry_encrypted := p1 |};
            {| entry_blobId := JStr (py "c3a9e282acf09f9880"); entry_encrypted := p2 |} ].
Proof.
  intros p1 p2 s1 s2.
  pose proof (@submit_then_list_round_trip depot_world depot_form_id p1 depot_ready
                {| status := py "stored"; stored_blobId := JStr (hexlify hello_bytes) |}
                s1 ltac:(run) ltac:(run))
    as (_ & Hone & Htwo).
  split.
  - apply Hone. run.
  - apply (Htwo p2 {| status := py "stored";
                      stored_blobId := JStr (py "c3a9e282acf09f9880") |} s2); run.
Defined.

(** C6 on a state with one form and an identifier that is not it. *)
Lemma submit_unknown_form_not_found_witness :
  submit (py "f2") hello (one_form [ok_json (JDict (created_body (py "b1")))])
  = (Raise (HTTPException 404 "form not found"),
     one_form [ok_json (JDict (created_body (py "b1")))]).
Proof.
  apply (@submit_unknown_form_not_found scripted (py "f2") hello
           (one_form [ok_json (JDict (created_body (py "b1")))])).
  run.
Defined.

(** C8 on the depot: the fresh form lists nothing, another identifier is
    not found. *)
Lemma fresh_form_lists_nothing_witness :
  @list_submissions depot_world (py "f2") depot_ready
  = (Raise (HTTPException 404 "form not found"), depot_ready).
Proof.
  apply (proj2 (@fresh_form_lists_nothing depot_world demo_request depot_ready (py "f2")));
    run.
Defined.

(** C9 on a submit that appends. *)
Lemma serve_keeps_ledger_consistent_witness :
  ledger_consistent
    (serve (Submit (py "f1") hello) (one_form [ok_json (JDict (created_body (py "b1")))])).
Proof.
  apply (@serve_keeps_ledger_consistent scripted (Submit (py "f1") hello)
           (one_form [ok_json (JDict (created_body (py "b1")))])).
  run.
Defined.

(** C10 on a state with two forms: the submit to "f1" leaves "f2" alone. *)
Lemma submit_only_appends_witness :
  let s := @State scripted
             {[ py "f1" := demo_form; py "f2" := demo_form ]}
             {[ py "f1" := [{| blobId := JStr (py "b0") |}];
                py "f2" := [{| blobId := JStr (py "b9") |}] ]}
             (Script [ok_json (JDict (created_body (py "b1")))] []) [] in
  let s' := snd (submit (py "f1") hello s) in
  forms s' = forms s
  /\ submissions s' !! py "f2" = Some [{| blobId := JStr (py "b9") |}]
  /\ submissions s' !! py "f1"
     = Some [{| blobId := JStr (py "b0") |}; {| blobId := JStr (py "b1") |}].
Proof.
  intros s s'.
  pose proof (@submit_only_appends scripted (py "f1") hello s
                {| status := py "stored"; stored_blobId := JStr (py "b1") |} s'
                ltac:(run))
    as (Hforms & Hothers & old & Hold & Hnew).
  split; [exact Hforms|]. split.
  - rewrite (Hothers (py "f2")); [run | discriminate].
  - rewrite Hnew. injection Hold as <-. run.
Defined.

(** C7 on the depot: the form is still there after a submit, a listing and
    a lookup. *)
Lemma create_form_links_and_get_form_witness :
  fst (@get_form depot_world depot_form_id
         (serve_all [Submit depot_form_id hello; ListSubmissions depot_form_id;
                     GetForm depot_form_id]
            depot_ready))
  = Ok demo_form.
Proof.
  destruct (@create_form_links_and_get_form depot_world demo_request depot_start)
    as (resp & Hresp & _ & _ & _ & Hlater).
  assert (formId resp = depot_form_id) as Hid.
  { vm_compute in Hresp. injection Hresp as <-. run. }
  rewrite <- Hid. apply Hlater. repeat constructor.
Defined.

(* ===================================================================== *)
(** * Further properties of the helpers and the handlers *)
(* ===================================================================== *)

(** ** The codec, in the other direction *)

Lemma mk_byte_val b : mk_byte (byte_val b) = b.
Proof.
  unfold mk_byte, byte_val. rewrite N2Z.id. by rewrite Byte.of_to_N.
Qed.

Lemma mk_byte_eq z b : z = byte_val b -> mk_byte z = b.
Proof. intros ->. apply mk_byte_val. Qed.

(** The strict decoder accepts only the shortest form of every character:
    what it decodes encodes back to the same bytes. *)
Lemma encode_decode_utf8 bs s :
  decode_utf8 bs = Some s -> encode_utf8 s = Some bs.
Proof.
  remember (length bs) as n eqn:Hn. revert bs s Hn.
  induction (lt_wf n) as [n _ IH]. intros bs s -> H.
  destruct bs as [|b0 r0]; [by injection H as <-|].
  cbn [decode_utf8] in H.
  pose proof (byte_val_range b0) as R0.
  destruct (Z.ltb_spec (byte_val b0) 0x80).
  { destruct (decode_utf8 r0) as [s'|] eqn:Hr; [|done]. injection H as <-.
    cbn [encode_utf8]. rewrite (IH (length r0) ltac:(cbn; lia) r0 s' eq_refl Hr).
    unfold encode_char.
    destruct (Z.ltb_spec (byte_val b0) 0); [lia|].
    destruct (Z.ltb_spec (byte_val b0) 0x80); [|lia].
    by rewrite mk_byte_val. }
  destruct (Z.ltb_spec (byte_val b0) 0xC2); [done|].
  destruct (Z.ltb_spec (byte_val b0) 0xE0).
  { destruct r0 as [|b1 r1]; [done|]. cbn zeta in H.
    pose proof (byte_val_range b1) as R1. unfold is_cont in H.
    destruct (Z.leb_spec 0x80 (byte_val b1)); cbn [andb] in H; [|done].
    destruct (Z.leb_spec (byte_val b1) 0xBF); [|done].
    destruct (decode_utf8 r1) as [s'|] eqn:Hr; [|done]. injection H as <-.
    cbn [encode_utf8]. rewrite (IH (length r1) ltac:(cbn; lia) r1 s' eq_refl Hr).
    set (c := (byte_val b0 - 0xC0) * 64 + (byte_val b1 - 0x80)).
    assert (0x80 <= c < 0x800) as Hc by (unfold c; lia).
    unfold encode_char.
    destruct (Z.ltb_spec c 0); [lia|].
    destruct (Z.ltb_spec c 0x80); [lia|].
    destruct (Z.ltb_spec c 0x800); [|lia].
    rewrite (mk_byte_eq (0xC0 + c / 64) b0) by (unfold c; by_range).
    rewrite (mk_byte_eq (0x80 + c mod 64) b1) by (unfold c; by_range).
    done. }
  destruct (Z.ltb_spec (byte_val b0) 0xF0).
  { destruct r0 as [|b1 [|b2 r2]]; [done..|]. cbn zeta in H.
    pose proof (byte_val_range b1) as R1. pose proof (byte_val_range b2) as R2.
    set (c := (byte_val b0 - 0xE0) * 4096 + (byte_val b1 - 0x80) * 64
              + (byte_val b2 - 0x80)) in *.
    unfold is_cont in H.
    destruct (Z.leb_spec 0x80 (byte_val b1)); cbn [andb] in H; [|done].
    destruct (Z.leb_spec (byte_val b1) 0xBF); cbn [andb] in H; [|done].
    destruct (Z.leb_spec 0x80 (byte_val b2)); cbn [andb] in H; [|done].
    destruct (Z.leb_spec (byte_val b2) 0xBF); cbn [andb] in H; [|done].
    destruct (Z.leb_spec 0x800 c); cbn [andb] in H; [|done].
    destruct (is_surrogate c) eqn:Hs; cbn [negb] in H; [done|].
    destruct (decode_utf8 r2) as [s'|] eqn:Hr; [|done]. injection H as <-.
    cbn [encode_utf8]. rewrite (IH (length r2) ltac:(cbn; lia) r2 s' eq_refl Hr).
    assert (0x800 <= c < 0x10000) as Hc by (unfold c in *; lia).
    unfold encode_char. rewrite Hs.
    destruct (Z.ltb_spec c 0); [lia|].
    destruct (Z.ltb_spec c 0x80); [lia|].
    destruct (Z.ltb_spec c 0x800); [lia|].
    destruct (Z.ltb_spec c 0x10000); [|lia].
    rewrite (mk_byte_eq (0xE0 + c / 4096) b0) by (unfold c; by_range).
    rewrite (mk_byte_eq (0x80 + (c / 64) mod 64) b1) by (unfold c; by_range).
    rewrite (mk_byte_eq (0x80 + c mod 64) b2) by (unfold c; by_range).
    done. }
  destruct (Z.ltb_spec (byte_val b0) 0xF5); [|done].
  destruct r0 as [|b1 [|b2 [|b3 r3]]]; [done..|]. cbn zeta in H.
  pose proof (byte_val_range b1) as R1. pose proof (byte_val_range b2) as R2.
  pose proof (byte_val_range b3) as R3.
  set (c := (byte_val b0 - 0xF0) * 262144 + (byte_val b1 - 0x80) * 4096
            + (byte_val b2 - 0x80) * 64 + (byte_val b3 - 0x80)) in *.
  unfold is_cont in H.
  destruct (Z.leb_spec 0x80 (byte_val b1)); cbn [andb] in H; [|done].
  destruct (Z.leb_spec (byte_val b1) 0xBF); cbn [andb] in H; [|done].
  destruct (Z.leb_spec 0x80 (byte_val b2)); cbn [andb] in H; [|done].
  destruct (Z.leb_spec (byte_val b2) 0xBF); cbn [andb] in H; [|done].
  destruct (Z.leb_spec 0x80 (byte_val b3)); cbn [andb] in H; [|done].
  destruct (Z.leb_spec (byte_val b3) 0xBF); cbn [andb] in H; [|done].
  destruct (Z.leb_spec 0x10000 c); cbn [andb] in H; [|done].
  destruct (Z.ltb_spec c 0x110000); [|done].
  destruct (decode_utf8 r3) as [s'|] eqn:Hr; [|done]. injection H as <-.
  cbn [encode_utf8]. rewrite (IH (length r3) ltac:(cbn; lia) r3 s' eq_refl Hr).
  unfold encode_char.
  destruct (Z.ltb_spec c 0); [lia|].
  destruct (Z.ltb_spec c 0x80); [lia|].
  destruct (Z.ltb_spec c 0x800); [lia|].
  destruct (Z.ltb_spec c 0x10000); [lia|].
  destruct (Z.ltb_spec c 0x110000); [|lia].
  rewrite (mk_byte_eq (0xF0 + c / 262144) b0) by (unfold c; by_range).
  rewrite (mk_byte_eq (0x80 + (c / 4096) mod 64) b1) by (unfold c; by_range).
  rewrite (mk_byte_eq (0x80 + (c / 64) mod 64) b2) by (unfold c; by_range).
  rewrite (mk_byte_eq (0x80 + c mod 64) b3) by (unfold c; by_range).
  done.
Qed.

(** ** Hexadecimal identifiers *)

Lemma hexlify_cons b bs :
  hexlify (b :: bs)
  = hex_digit (byte_val b / 16) :: hex_digit (byte_val b mod 16) :: hexlify bs.
Proof. reflexivity. Qed.

Lemma hexlify_length bs : length (hexlify bs) = (2 * length bs)%nat.
Proof.
  induction bs as [|b bs IH]; [done|].
  rewrite hexlify_cons. cbn [length]. rewrite IH. lia.
Qed.

Lemma hex_digit_char n : 0 <= n < 16 -> is_hex_char (hex_digit n) = true.
Proof.
  intros Hn. unfold is_hex_char, hex_digit.
  destruct (Z.ltb_spec n 10).
  - apply orb_true_iff. left. apply andb_true_iff. split; apply Z.leb_le; lia.
  - apply orb_true_iff. right. apply andb_true_iff. split; apply Z.leb_le; lia.
Qed.

Lemma hexlify_chars bs : forallb is_hex_char (hexlify bs) = true.
Proof.
  induction bs as [|b bs IH]; [done|]. rewrite hexlify_cons. cbn [forallb].
  pose proof (byte_val_range b).
  rewrite !hex_digit_char by by_range. exact IH.
Qed.

(** ** What reading the body of an upload can give *)

Lemma read_upload_returns j v :
  read_upload j = Ok v ->
  exists m, j = JDict m
    /\ (at_path (JDict m) created_path = Some v
        \/ (m !! py "newlyCreated" = None
            /\ at_path (JDict m) certified_path = Some v)).
Proof.
  unfold read_upload. destruct j as [| | | | s | l | m]; cbn [py_in]; try done.
  - destruct (is_substring _ s); cbn [py_getitem]; [done|].
    destruct (is_substring _ s); by cbn [py_getitem].
  - destruct (existsb _ l); cbn [py_getitem]; [done|].
    destruct (existsb _ l); by cbn [py_getitem].
  - intros H. exists m. split; [done|].
    unfold created_path, certified_path. cbn [at_path].
    cbn [py_getitem] in H.
    destruct (m !! py "newlyCreated") as [a|] eqn:Hn.
    + left. destruct a as [| | | | | |ma]; try done. cbn [py_getitem] in H.
      destruct (ma !! py "blobObject") as [b|]; [|done].
      destruct b as [| | | | | |mb]; try done. cbn [py_getitem] in H.
      destruct (mb !! py "blobId") as [x|]; [|done]. by injection H as ->.
    + right. split; [done|].
      destruct (m !! py "alreadyCertified") as [a|]; [|done].
      destruct a as [| | | | | |ma]; try done. cbn [py_getitem] in H.
      destruct (ma !! py "blobId") as [x|]; [|done]. by injection H as ->.
Qed.

Lemma read_upload_raises j e :
  read_upload j = Raise e ->
  e = TypeError \/ e = KeyError (py "blobObject") \/ e = KeyError (py "blobId")
  \/ e = HTTPException 500 "walrus upload missing blobId".
Proof.
  unfold read_upload. destruct j as [| | | | s | l | m]; cbn [py_in];
    try (intros [= <-]; by left).
  - destruct (is_substring _ s); cbn [py_getitem]; [intros [= <-]; by left|].
    destruct (is_substring _ s); cbn [py_getitem]; intros [= <-]; auto.
  - destruct (existsb _ l); cbn [py_getitem]; [intros [= <-]; by left|].
    destruct (existsb _ l); cbn [py_getitem]; intros [= <-]; auto.
  - cbn [py_getitem].
    destruct (m !! py "newlyCreated") as [a|] eqn:Hn.
    + destruct a as [| | | | | |ma]; try (intros [= <-]; by left). cbn [py_getitem].
      destruct (ma !! py "blobObject") as [b|]; [|intros [= <-]; auto].
      destruct b as [| | | | | |mb]; try (intros [= <-]; by left). cbn [py_getitem].
      destruct (mb !! py "blobId") as [x|]; [done|intros [= <-]; auto].
    + destruct (m !! py "alreadyCertified") as [a|]; [|intros [= <-]; auto].
      destruct a as [| | | | | |ma]; try (intros [= <-]; by left). cbn [py_getitem].
      destruct (ma !! py "blobId") as [x|]; [done|intros [= <-]; auto].
Qed.

Lemma read_upload_non_object j :
  (forall m, j <> JDict m) ->
  read_upload j =
    match py_in (py "newlyCreated") j, py_in (py "alreadyCertified") j with
    | Ok false, Ok false => Raise (HTTPException 500 "walrus upload missing blobId")
    | _, _ => Raise TypeError
    end.
Proof.
  intros Hj. unfold read_upload.
  destruct j as [| | | | s | l | m]; cbn [py_in py_getitem]; try reflexivity.
  by destruct (Hj m).
Qed.

Lemma read_upload_no_fallback m a :
  m !! py "newlyCreated" = Some a ->
  at_path (JDict m) created_path = None ->
  read_upload (JDict m) = Raise TypeError
  \/ read_upload (JDict m) = Raise (KeyError (py "blobObject"))
  \/ read_upload (JDict m) = Raise (KeyError (py "blobId")).
Proof.
  intros Hn. unfold read_upload, created_path. cbn [py_in py_getitem at_path].
  rewrite Hn.
  destruct a as [| | | | | |ma]; cbn [py_getitem]; auto.
  destruct (ma !! py "blobObject") as [b|]; [|auto].
  destruct b as [| | | | | |mb]; cbn [py_getitem]; auto.
  destruct (mb !! py "blobId") as [x|]; [done|auto].
Qed.

Lemma upload_exn_not_404 e d : upload_exn e -> e <> HTTPException 404 d.
Proof.
  unfold upload_exn. intros H ->. destruct H as [[[|cls] H]|H]; [done..|].
  repeat destruct H as [H|H]; discriminate.
Qed.

Lemma fetch_exn_not_404 e d : fetch_exn e -> e <> HTTPException 404 d.
Proof.
  unfold fetch_exn. intros H ->. destruct H as [[[|cls] H]|H]; [done..|].
  repeat destruct H as [H|H]; discriminate.
Qed.

Lemma upload_reply_raises o e : upload_reply o = Raise e -> upload_exn e.
Proof.
  unfold upload_exn, upload_reply. destruct o as [|resp].
  { intros [= <-]. tauto. }
  destruct (status_code resp =? 200); [|intros [= <-]; tauto].
  destruct (json_call resp) as [j| |]; [|intros [= <-]; tauto..].
  intros Hr. apply read_upload_raises in Hr. tauto.
Qed.

Lemma fetch_reply_raises o e : fetch_reply o = Raise e -> fetch_exn e.
Proof.
  unfold fetch_exn, fetch_reply. destruct o as [|resp]; [intros [= <-]; tauto|].
  destruct (status_code resp =? 200); [|intros [= <-]; tauto].
  destruct (decode_utf8 (content resp)); [done|intros [= <-]; tauto].
Qed.

Lemma fetch_reply_text o :
  fetch_reply o = match fetch_text o with
                  | Some text => Ok text
                  | None => fetch_reply o
                  end.
Proof.
  unfold fetch_reply, fetch_text. destruct o as [|resp]; [done|].
  destruct (status_code resp =? 200); [|done].
  by destruct (decode_utf8 (content resp)).
Qed.

Lemma fetch_text_none o : fetch_text o = None -> exists e, fetch_reply o = Raise e.
Proof.
  unfold fetch_reply, fetch_text. destruct o as [|resp]; [by eexists|].
  destruct (status_code resp =? 200); [|by eexists].
  destruct (decode_utf8 (content resp)); [done|by eexists].
Qed.

Section Traces.
Context {P : Platform}.

Lemma walrus_upload_raises p s e s' :
  walrus_upload p s = (Raise e, s') -> upload_exn e.
Proof.
  destruct (encode_utf8 p) as [data|] eqn:He.
  - destruct (requests_put upload_url data (world s)) as [o w] eqn:Hp.
    rewrite (walrus_upload_sent _ _ _ _ _ He Hp). intros H.
    destruct (finish_result (upload_log o) (upload_reply o)
                (after_call s w (PUT upload_url data))) as [Hr|(l & pe & _ & _ & Hr)];
      rewrite H in Hr; cbn [fst] in Hr.
    + by apply (upload_reply_raises o).
    + injection Hr as ->. left. by exists pe.
  - rewrite (walrus_upload_unencodable _ _ He). intros H. injection H as <- _.
    unfold upload_exn. tauto.
Qed.

Lemma walrus_upload_returns p s v s' :
  walrus_upload p s = (Ok v, s') ->
  exists data resp m,
    encode_utf8 p = Some data
    /\ fst (requests_put upload_url data (world s)) = Returned resp
    /\ s' = after_call s (snd (requests_put upload_url data (world s)))
              (PUT upload_url data)
    /\ status_code resp = 200
    /\ json_body resp = Some (JDict m)
    /\ (at_path (JDict m) created_path = Some v
        \/ (m !! py "newlyCreated" = None
            /\ at_path (JDict m) certified_path = Some v)).
Proof.
  intros H. destruct (walrus_upload_ok _ _ _ _ H) as (data & o & w & He & Hp & Hr & ->).
  unfold upload_reply in Hr. destruct o as [|resp]; [done|].
  destruct (status_code resp =? 200) eqn:Hst; [|done].
  unfold json_body. destruct (json_call resp) as [j| |] eqn:Hj; [|done..].
  apply read_upload_returns in Hr as (m & -> & Hv).
  exists data, resp, m. apply Z.eqb_eq in Hst. rewrite Hp, Hj. by repeat split.
Qed.

Lemma walrus_upload_wire p s data :
  encode_utf8 p = Some data ->
  wire (snd (walrus_upload p s)) = wire s ++ [PUT upload_url data].
Proof.
  intros He. destruct (requests_put upload_url data (world s)) as [o w] eqn:Hp.
  rewrite (walrus_upload_sent _ _ _ _ _ He Hp).
  by destruct (finish_frame (upload_log o) (upload_reply o)
                 (after_call s w (PUT upload_url data))) as (_ & _ & ->).
Qed.

Lemma walrus_fetch_raises blob_id s e s' :
  walrus_fetch blob_id s = (Raise e, s') -> fetch_exn e.
Proof.
  destruct (requests_get (blob_url blob_id) (world s)) as [o w] eqn:Hg.
  rewrite (walrus_fetch_sent _ _ _ _ Hg). intros H.
  destruct (finish_result (fetch_log o) (fetch_reply o)
              (after_call s w (GET (blob_url blob_id)))) as [Hr|(l & pe & _ & _ & Hr)];
    rewrite H in Hr; cbn [fst] in Hr.
  - by apply (fetch_reply_raises o).
  - injection Hr as ->. left. by exists pe.
Qed.

Lemma walrus_fetch_wire blob_id s :
  wire (snd (walrus_fetch blob_id s)) = wire s ++ [GET (blob_url blob_id)].
Proof.
  destruct (requests_get (blob_url blob_id) (world s)) as [o w] eqn:Hg.
  rewrite (walrus_fetch_sent _ _ _ _ Hg).
  by destruct (finish_frame (fetch_log o) (fetch_reply o)
                 (after_call s w (GET (blob_url blob_id)))) as (_ & _ & ->).
Qed.

(** A fetch that returned: the reply it read, and nothing printed. *)
Lemma walrus_fetch_returns blob_id s text s1 :
  walrus_fetch blob_id s = (Ok text, s1) ->
  exists resp w,
    requests_get (blob_url blob_id) (world s) = (Returned resp, w)
    /\ status_code resp = 200
    /\ decode_utf8 (content resp) = Some text
    /\ s1 = after_call s w (GET (blob_url blob_id)).
Proof.
  destruct (requests_get (blob_url blob_id) (world s)) as [o w] eqn:Hg.
  rewrite (walrus_fetch_sent _ _ _ _ Hg). intros H.
  assert (fetch_reply o = Ok text) as Hr.
  { destruct (finish_result (fetch_log o) (fetch_reply o)
                (after_call s w (GET (blob_url blob_id)))) as [Hr|(l & pe & _ & _ & Hr)];
      rewrite H in Hr; cbn [fst] in Hr; [done | discriminate]. }
  rewrite (fetch_reply_ok_quiet _ _ Hr), finish_none in H. injection H as _ <-.
  unfold fetch_reply in Hr. destruct o as [|resp]; [done|].
  destruct (status_code resp =? 200) eqn:Hst; [|done].
  destruct (decode_utf8 (content resp)) as [t|] eqn:Hd; [|done].
  injection Hr as ->. apply Z.eqb_eq in Hst. by exists resp, w.
Qed.

Lemma served_ids w items :
  entry_blobId <$> served w items = blobId <$> take (length (served w items)) items.
Proof.
  revert w. induction items as [|item items IH]; intros w; [done|].
  cbn [served]. destruct (requests_get (blob_url (blobId item)) w) as [o w'].
  destruct (fetch_text o); [|done]. cbn. by rewrite IH.
Qed.

(** The loop of [list_submissions]: it returns exactly when every record
    is served, and then returns the entries served; otherwise it raises,
    and the last request it sent is the one for the first record that was
    not served. *)
Lemma fetch_items_trace items acc s :
  match fetch_items items acc s with
  | (Ok entries, s') =>
      entries = acc ++ served (world s) items
      /\ length (served (world s) items) = length items
      /\ wire s' = wire s ++ gets items
  | (Raise e, s') =>
      fetch_exn e
      /\ (length (served (world s) items) < length items)%nat
      /\ wire s' = wire s ++ gets (take (S (length (served (world s) items))) items)
  end.
Proof.
  revert acc s. induction items as [|item items IH]; intros acc s.
  - cbn. by rewrite !app_nil_r.
  - cbn [fetch_items served]. unfold bind.
    pose proof (walrus_fetch_wire (blobId item) s) as Hw.
    destruct (requests_get (blob_url (blobId item)) (world s)) as [o w] eqn:Hg.
    destruct (fetch_text o) as [text|] eqn:Ht.
    + assert (walrus_fetch (blobId item) s
              = (Ok text, after_call s w (GET (blob_url (blobId item))))) as Hf.
      { rewrite (walrus_fetch_sent _ _ _ _ Hg).
        assert (fetch_reply o = Ok text) as Hr
          by (rewrite fetch_reply_text; by rewrite Ht).
        by rewrite (fetch_reply_ok_quiet _ _ Hr), Hr. }
      rewrite Hf in *. cbn [snd] in Hw.
      specialize (IH (acc ++ [{| entry_blobId := blobId item;
                                 entry_encrypted := text |}])
                     (after_call s w (GET (blob_url (blobId item))))).
      cbn [after_call world] in IH.
      destruct (fetch_items items _ _) as [[entries|e] s2].
      * destruct IH as (-> & Hlen & Hw2). split; [by rewrite <- app_assoc|].
        split; [cbn; by rewrite Hlen|].
        rewrite Hw2. unfold gets. cbn. by rewrite <- app_assoc.
      * destruct IH as (He & Hlen & Hw2). split; [done|].
        split; [cbn; lia|].
        rewrite Hw2. unfold gets. cbn. by rewrite <- app_assoc.
    + destruct (walrus_fetch (blobId item) s) as [[text|e] s1] eqn:Hf.
      * destruct (walrus_fetch_returns _ _ _ _ Hf) as (resp & w1 & Hg1 & Hst & Hd & _).
        rewrite Hg in Hg1. injection Hg1 as -> _.
        unfold fetch_text in Ht. apply Z.eqb_eq in Hst. rewrite Hst in Ht. congruence.
      * cbn [snd] in Hw. split; [by eapply walrus_fetch_raises|].
        split; [cbn; lia|]. rewrite Hw. cbn. by rewrite take_0.
Qed.

Lemma list_submissions_sends f s items :
  submissions s !! f = Some items ->
  match fst (list_submissions f s) with
  | Ok entries =>
      entries = served (world s) items
      /\ length entries = length items
      /\ entry_blobId <$> entries = blobId <$> items
      /\ wire (snd (list_submissions f s)) = wire s ++ gets items
  | Raise e =>
      fetch_exn e
      /\ (length (served (world s) items) < length items)%nat
      /\ wire (snd (list_submissions f s))
         = wire s ++ gets (take (S (length (served (world s) items))) items)
  end.
Proof.
  intros Hi. unfold list_submissions, bind, get_state. rewrite Hi.
  pose proof (fetch_items_trace items [] s) as Ht.
  destruct (fetch_items items [] s) as [[es|e] s']; cbn [fst snd]; [|done].
  destruct Ht as (-> & Hlen & Hw). cbn [app]. split; [done|]. split; [done|].
  split; [|done]. by rewrite served_ids, Hlen, firstn_all.
Qed.

Lemma submit_raises f d s e s' :
  submit f d s = (Raise e, s') ->
  (forms s !! f = None /\ e = HTTPException 404 "form not found")
  \/ (is_Some (forms s !! f)
      /\ (upload_exn e \/ (submissions s !! f = None /\ e = KeyError f))).
Proof.
  destruct (forms s !! f) as [x|] eqn:Hf.
  - rewrite (submit_registered _ _ _ _ Hf). intros H. right. split; [by eexists|].
    pose proof (walrus_upload_frame (encrypted d) s) as [_ Hss].
    destruct (walrus_upload (encrypted d) s) as [[v|e1] s1] eqn:Hu; cbn [snd] in Hss.
    + rewrite Hss in H. destruct (submissions s !! f); [done|].
      injection H as <- _. by right.
    + injection H as <- _. left. by eapply walrus_upload_raises.
  - rewrite (submit_unregistered _ _ _ Hf). intros [= <- _]. by left.
Qed.

Lemma submit_wire f d s :
  match forms s !! f, encode_utf8 (encrypted d) with
  | Some _, Some data =>
      wire (snd (submit f d s)) = wire s ++ [PUT upload_url data]
  | _, _ => wire (snd (submit f d s)) = wire s
  end.
Proof.
  destruct (forms s !! f) as [x|] eqn:Hf.
  - rewrite (submit_registered _ _ _ _ Hf).
    destruct (encode_utf8 (encrypted d)) as [data|] eqn:He.
    + pose proof (walrus_upload_wire (encrypted d) s data He) as Hw.
      destruct (walrus_upload (encrypted d) s) as [[v|e] s1]; cbn [snd] in Hw; [|done].
      by destruct (submissions s1 !! f).
    + by rewrite (walrus_upload_unencodable _ _ He).
  - by rewrite (submit_unregistered _ _ _ Hf).
Qed.

Lemma serve_wire r s :
  exists new, wire (serve r s) = wire s ++ new /\ Forall is_walrus_call new.
Proof.
  destruct r as [|data|f d|f|f]; cbn [serve].
  - exists []. by rewrite app_nil_r.
  - pose proof (create_form_runs data s) as H.
    destruct (token_bytes 16 (world s)) as [bs w]. cbn zeta in H. rewrite H.
    exists []. by rewrite app_nil_r.
  - pose proof (submit_wire f d s) as H.
    destruct (forms s !! f); [destruct (encode_utf8 (encrypted d)) as [data|]|].
    + exists [PUT upload_url data]. split; [done|]. by repeat constructor.
    + exists []. by rewrite app_nil_r.
    + exists []. by rewrite app_nil_r.
  - destruct (submissions s !! f) as [items|] eqn:Hi.
    + pose proof (list_submissions_sends f s items Hi) as H.
      assert (forall l, Forall is_walrus_call (gets l)) as Hg.
      { intros l. unfold gets. apply Forall_fmap, Forall_forall.
        intros item _. by eexists. }
      destruct (fst (list_submissions f s)).
      * destruct H as (_ & _ & _ & ->). eexists. split; [done|]. apply Hg.
      * destruct H as (_ & _ & ->). eexists. split; [done|]. apply Hg.
    + unfold list_submissions, bind, get_state. rewrite Hi.
      exists []. by rewrite app_nil_r.
  - rewrite get_form_frame. exists []. by rewrite app_nil_r.
Qed.

Lemma serve_appends r s k old :
  is_create r = false ->
  submissions s !! k = Some old ->
  exists more, submissions (serve r s) !! k = Some (old ++ more)
               /\ (length more <= 1)%nat.
Proof.
  intros Hr Hk. destruct r as [|data|f d|f|f]; cbn [serve]; try done.
  - exists []. rewrite app_nil_r. split; [done | cbn; lia].
  - pose proof (submit_effect f d s) as [_ Hs].
    destruct (fst (submit f d s)).
    + destruct Hs as (old' & Hold & ->).
      destruct (decide (f = k)) as [->|Hne].
      * rewrite lookup_insert_eq. rewrite Hk in Hold. injection Hold as <-.
        eexists. split; [done|]. cbn. lia.
      * rewrite lookup_insert_ne by done. exists [].
        rewrite app_nil_r. split; [done | cbn; lia].
    + rewrite Hs. exists []. rewrite app_nil_r. split; [done | cbn; lia].
  - pose proof (list_submissions_frame f s) as [_ ->].
    exists []. rewrite app_nil_r. split; [done | cbn; lia].
  - rewrite get_form_frame. exists []. rewrite app_nil_r. split; [done | cbn; lia].
Qed.

Lemma submit_each_ledger f texts s rs s' old :
  submit_each f texts s = (Ok rs, s') ->
  submissions s !! f = Some old ->
  submissions s' !! f = Some (old ++ (record_of <$> rs))
  /\ length rs = length texts
  /\ Forall (fun text => is_Some (encode_utf8 text)) texts.
Proof.
  revert s rs old. induction texts as [|text texts IH]; intros s rs old H Hold.
  - cbn in H. injection H as <- <-. by rewrite app_nil_r.
  - cbn [submit_each] in H. unfold bind in H.
    destruct (submit f {| encrypted := text |} s) as [[r|e] s1] eqn:H1; [|done].
    destruct (submit_each f texts s1) as [[rs'|e] s2] eqn:H2; [|done].
    cbn in H. injection H as <- <-.
    destruct (submit_returned _ _ _ _ _ H1) as (_ & old1 & Ho1 & Hs1).
    rewrite Hold in Ho1. injection Ho1 as <-.
    assert (submissions s1 !! f = Some (old ++ [record_of r])) as Hl1.
    { rewrite Hs1. by rewrite lookup_insert_eq. }
    destruct (IH _ _ _ H2 Hl1) as (Hl2 & Hlen & Henc).
    destruct (submit_sends_payload _ _ _ _ _ H1) as (data & He & _).
    split; [|split].
    + rewrite Hl2. cbn. by rewrite <- app_assoc.
    + cbn. by rewrite Hlen.
    + constructor; [by exists data | done].
Qed.

End Traces.

Section Further.
Context {P : Platform}.

(** X1.  [walrus_upload] returns a value only when the text could be
    encoded, the publisher answered 200, the body parsed to a JSON object,
    and the value is the one at newlyCreated.blobObject.blobId or, the
    object having no key "newlyCreated", the one at
    alreadyCertified.blobId; exactly one PUT has then been sent. *)
Theorem walrus_upload_returns_only_a_variant p s v s' :
  walrus_upload p s = (Ok v, s') ->
  exists data resp m,
    encode_utf8 p = Some data
    /\ fst (requests_put upload_url data (world s)) = Returned resp
    /\ wire s' = wire s ++ [PUT upload_url data]
    /\ status_code resp = 200
    /\ json_body resp = Some (JDict m)
    /\ (at_path (JDict m) created_path = Some v
        \/ (m !! py "newlyCreated" = None
            /\ at_path (JDict m) certified_path = Some v)).
Proof.
  intros H.
  destruct (walrus_upload_returns _ _ _ _ H)
    as (data & resp & m & He & Hp & -> & Hst & Hj & Hv).
  exists data, resp, m. by repeat split.
Qed.

(** X3.  When the publisher answers 200 and the body parses to a JSON
    value that is not an object, [walrus_upload] never returns.  If one of
    the two membership tests raises or is true (null, a boolean, a number,
    or an array or string in which a name occurs) it raises [TypeError].
    If both are false (an array with neither name as an element, a string
    with neither name as a substring) it prints the line of line 71 and
    raises the 500 "walrus upload missing blobId", unless the print itself
    raises: then what the print raised leaves the upload instead. *)
Theorem walrus_upload_non_object_body p s data resp w j :
  encode_utf8 p = Some data ->
  requests_put upload_url data (world s) = (Returned resp, w) ->
  status_code resp = 200 ->
  json_body resp = Some j ->
  (forall m, j <> JDict m) ->
  fst (walrus_upload p s) =
    match py_in (py "newlyCreated") j, py_in (py "alreadyCertified") j with
    | Ok false, Ok false =>
        match fst (print_line (WalrusUploadMissingBlobId j) w) with
        | None => Raise (HTTPException 500 "walrus upload missing blobId")
        | Some e => Raise (exn_of_print e)
        end
    | _, _ => Raise TypeError
    end.
Proof.
  intros He Hp Hst Hj Hno. rewrite (walrus_upload_200_sent _ _ _ _ _ _ He Hp Hst Hj).
  rewrite (read_upload_non_object _ Hno). unfold falls_through.
  destruct (py_in (py "newlyCreated") j) as [[]|]; [done| |done].
  destruct (py_in (py "alreadyCertified") j) as [[]|]; [done| |done].
  unfold finish, bind, do_print, lift. cbn [after_call world].
  by destruct (print_line (WalrusUploadMissingBlobId j) w) as [[pe|] w'].
Qed.

(** X4.  When the body is an object with the key "newlyCreated" but the
    path newlyCreated.blobObject.blobId leads nowhere, [walrus_upload]
    raises [TypeError] or [KeyError]; it does not fall back to
    "alreadyCertified", whatever that key holds. *)
Theorem walrus_upload_never_falls_back p s data resp w m a :
  encode_utf8 p = Some data ->
  requests_put upload_url data (world s) = (Returned resp, w) ->
  status_code resp = 200 ->
  json_body resp = Some (JDict m) ->
  m !! py "newlyCreated" = Some a ->
  at_path (JDict m) created_path = None ->
  fst (walrus_upload p s) = Raise TypeError
  \/ fst (walrus_upload p s) = Raise (KeyError (py "blobObject"))
  \/ fst (walrus_upload p s) = Raise (KeyError (py "blobId")).
Proof.
  intros He Hp Hst Hj Hn Hpath.
  assert (falls_through (JDict m) = false) as Hft.
  { unfold falls_through. cbn [py_in]. by rewrite Hn. }
  rewrite (walrus_upload_200 _ _ _ _ _ _ He Hp Hst Hj Hft).
  cbn [fst]. by eapply read_upload_no_fallback.
Qed.

(** X5.  In a consistent state, each of [submit], [list_submissions] and
    [get_form] raises a 404 exactly when the form identifier is not
    registered: no failure of the store ever shows as a 404. *)
Theorem not_found_iff_unknown f d s :
  ledger_consistent s ->
  ((exists detail, fst (submit f d s) = Raise (HTTPException 404 detail))
   <-> forms s !! f = None)
  /\ ((exists detail, fst (list_submissions f s) = Raise (HTTPException 404 detail))
      <-> forms s !! f = None)
  /\ ((exists detail, fst (get_form f s) = Raise (HTTPException 404 detail))
      <-> forms s !! f = None).
Proof.
  intros Hc.
  assert (forms s !! f = None <-> submissions s !! f = None) as Hiff.
  { rewrite <- !not_elem_of_dom. by rewrite Hc. }
  split; [|split]; split.
  - intros [detail H].
    destruct (submit f d s) as [[r|e] s'] eqn:Hs; [done|]. cbn [fst] in H.
    injection H as ->.
    apply submit_raises in Hs as [[Hf _]|[_ [He|[_ He]]]]; [done| |done].
    by destruct (upload_exn_not_404 _ detail He).
  - intros Hf. eexists. by rewrite (submit_unregistered _ _ _ Hf).
  - intros [detail H]. apply Hiff. unfold list_submissions, bind, get_state in H.
    destruct (submissions s !! f) as [items|]; [|done].
    pose proof (fetch_items_trace items [] s) as Ht.
    destruct (fetch_items items [] s) as [[es|e] s']; [done|].
    cbn [fst] in H. injection H as ->. destruct Ht as [He _].
    by destruct (fetch_exn_not_404 _ detail He).
  - intros Hf. apply Hiff in Hf. eexists.
    unfold list_submissions, bind, get_state. by rewrite Hf.
  - intros [detail H]. unfold get_form, bind, get_state in H.
    by destruct (forms s !! f).
  - intros Hf. eexists. unfold get_form, bind, get_state. by rewrite Hf.
Qed.

(** X6.  A submit sends one request, the PUT of the UTF-8 bytes of the
    text to the publisher URL, when the form is registered and the text
    can be encoded, whatever the publisher then answers; otherwise it
    sends nothing.  It never sends a second request. *)
Theorem submit_sends_at_most_one_put f d s :
  match forms s !! f, encode_utf8 (encrypted d) with
  | Some _, Some data =>
      wire (snd (submit f d s)) = wire s ++ [PUT upload_url data]
  | _, _ => wire (snd (submit f d s)) = wire s
  end.
Proof. apply submit_wire. Qed.

(** X7.  [list_submissions] on a form with records [items] never changes
    the registry or the ledger.  It returns exactly when the fetch of
    every record succeeds; the entries are then those fetched, one per
    record and in the order of the records, and one GET was sent per
    record, in order.  Otherwise it raises one of the exceptions of
    [walrus_fetch], and the GETs sent are those of the records before the
    first one whose fetch fails and of that one: no later record is asked
    for. *)
Theorem list_submissions_trace f s items :
  submissions s !! f = Some items ->
  forms (snd (list_submissions f s)) = forms s
  /\ submissions (snd (list_submissions f s)) = submissions s
  /\ match fst (list_submissions f s) with
     | Ok entries =>
         entries = served (world s) items
         /\ length entries = length items
         /\ entry_blobId <$> entries = blobId <$> items
         /\ wire (snd (list_submissions f s)) = wire s ++ gets items
     | Raise e =>
         fetch_exn e
         /\ (length (served (world s) items) < length items)%nat
         /\ wire (snd (list_submissions f s))
            = wire s ++ gets (take (S (length (served (world s) items))) items)
     end.
Proof.
  intros Hi. pose proof (list_submissions_frame f s) as [Hf Hs].
  split; [done|]. split; [done|]. by apply list_submissions_sends.
Qed.

(** X8.  [create_form] always returns; its identifier is the hexadecimal
    of the 16 random bytes drawn; it sends no request; and the registry
    entry and the list of every other identifier are as they were. *)
Theorem create_form_frame data s :
  exists resp,
    fst (create_form data s) = Ok resp
    /\ formId resp = hexlify (fst (token_bytes 16 (world s)))
    /\ wire (snd (create_form data s)) = wire s
    /\ forall g, g <> formId resp ->
         forms (snd (create_form data s)) !! g = forms s !! g
         /\ submissions (snd (create_form data s)) !! g = submissions s !! g.
Proof.
  pose proof (create_form_runs data s) as H.
  destruct (token_bytes 16 (world s)) as [bs w]. cbn zeta in H. rewrite H.
  eexists. split; [reflexivity|]. cbn [fst snd formId wire forms submissions].
  repeat split; by rewrite lookup_insert_ne.
Qed.

(** X9.  The identifier [create_form] returns has two characters per
    random byte drawn (32 for the 16 bytes asked for), each of them one of
    0-9 and a-f. *)
Theorem form_id_format data s :
  exists resp,
    fst (create_form data s) = Ok resp
    /\ length (formId resp) = (2 * length (fst (token_bytes 16 (world s))))%nat
    /\ forallb is_hex_char (formId resp) = true.
Proof.
  pose proof (create_form_runs data s) as H.
  destruct (token_bytes 16 (world s)) as [bs w]. cbn zeta in H. rewrite H.
  eexists. split; [reflexivity|]. cbn [fst formId].
  split; [apply hexlify_length | apply hexlify_chars].
Qed.

(** X10.  Two [create_form] calls in a row: if the two tokens drawn
    differ, the first form is still returned by [get_form] and its list is
    untouched; if they are equal, the second call replaces the first form
    and its list is empty again. *)
Theorem create_form_twice d1 d2 s :
  let t1 := fst (token_bytes 16 (world s)) in
  let s1 := snd (create_form d1 s) in
  let t2 := fst (token_bytes 16 (world s1)) in
  let s2 := snd (create_form d2 s1) in
  (t1 <> t2 ->
   fst (get_form (hexlify t1) s2)
   = Ok {| publicKey := req_publicKey d1; schema := req_schema d1 |}
   /\ submissions s2 !! hexlify t1 = submissions s1 !! hexlify t1)
  /\ (t1 = t2 ->
      fst (get_form (hexlify t1) s2)
      = Ok {| publicKey := req_publicKey d2; schema := req_schema d2 |}
      /\ submissions s2 !! hexlify t1 = Some []).
Proof.
  intros t1 s1 t2 s2. subst t1 s1 t2 s2.
  pose proof (create_form_runs d1 s) as H1.
  destruct (token_bytes 16 (world s)) as [t1 w1]. cbn zeta in H1. rewrite H1.
  cbn [fst snd world].
  set (s1 := State _ _ w1 (wire s)).
  pose proof (create_form_runs d2 s1) as H2.
  change (world s1) with w1 in H2.
  destruct (token_bytes 16 w1) as [t2 w2]. cbn zeta in H2. rewrite H2.
  cbn [fst snd]. unfold get_form, bind, get_state. cbn [forms submissions s1].
  split.
  - intros Hne. assert (hexlify t2 <> hexlify t1) as Hid.
    { intros Heq. apply hexlify_inj in Heq. by subst. }
    rewrite !(lookup_insert_ne _ (hexlify t2)) by done.
    by rewrite !lookup_insert_eq.
  - intros <-. by rewrite !lookup_insert_eq.
Qed.

(** X11.  No request removes a form: an identifier that is in the registry
    (in the ledger) before a request is still in it afterwards, whether the
    handler returned or raised. *)
Theorem serve_never_forgets r s k :
  (is_Some (forms s !! k) -> is_Some (forms (serve r s) !! k))
  /\ (is_Some (submissions s !! k) -> is_Some (submissions (serve r s) !! k)).
Proof.
  destruct r as [|data|f d|f|f]; cbn [serve].
  - done.
  - pose proof (create_form_runs data s) as H.
    destruct (token_bytes 16 (world s)) as [bs w]. cbn zeta in H. rewrite H.
    cbn [snd forms submissions]. split; intros Hk.
    + destruct (decide (hexlify bs = k)) as [->|Hne].
      * rewrite lookup_insert_eq. by eexists.
      * by rewrite lookup_insert_ne.
    + destruct (decide (hexlify bs = k)) as [->|Hne].
      * rewrite lookup_insert_eq. by eexists.
      * by rewrite lookup_insert_ne.
  - pose proof (submit_effect f d s) as [Hf Hs]. rewrite Hf. split; [done|].
    destruct (fst (submit f d s)).
    + destruct Hs as (old & Hold & ->). intros Hk.
      destruct (decide (f = k)) as [->|Hne].
      * rewrite lookup_insert_eq. by eexists.
      * by rewrite lookup_insert_ne.
    + by rewrite Hs.
  - by pose proof (list_submissions_frame f s) as [-> ->].
  - by rewrite get_form_frame.
Qed.

(** X12.  The ledger is append-only under every request but
    [create_form]: after any sequence of such requests, the list of a form
    is the list it had, followed by at most one record per request. *)
Theorem ledger_append_only rs s k old :
  Forall (fun r => is_create r = false) rs ->
  submissions s !! k = Some old ->
  exists more, submissions (serve_all rs s) !! k = Some (old ++ more)
               /\ (length more <= length rs)%nat.
Proof.
  revert s old. induction rs as [|r rs IH]; intros s old Hrs Hk.
  - exists []. rewrite app_nil_r. split; [done | cbn; lia].
  - apply Forall_cons in Hrs as [Hr Hrs].
    destruct (serve_appends r s k old Hr Hk) as (m1 & H1 & Hl1).
    destruct (IH _ _ Hrs H1) as (m2 & H2 & Hl2).
    exists (m1 ++ m2). unfold serve_all in *. cbn [foldl].
    rewrite H2, <- app_assoc. split; [done|]. rewrite length_app. cbn. lia.
Qed.

(** X13.  Any number of texts submitted one after the other to a form
    whose list is empty, all submits returning: the list of the form holds
    one record per text, in the order of the submits, and if the aggregator
    returns for each blob identifier the bytes uploaded for it,
    [list_submissions] returns the texts, unchanged and in that order. *)
Theorem submit_each_then_list f texts s rs s' :
  submissions s !! f = Some [] ->
  submit_each f texts s = (Ok rs, s') ->
  length rs = length texts
  /\ submissions s' !! f = Some (record_of <$> rs)
  /\ (aggregator_serves (world s') (stored_blobId <$> rs) = encode_utf8 <$> texts ->
      fst (list_submissions f s')
      = Ok (zip_with Build_entry (stored_blobId <$> rs) texts)).
Proof.
  intros Hempty H.
  destruct (submit_each_ledger _ _ _ _ _ _ H Hempty) as (Hl & Hlen & Henc).
  cbn [app] in Hl. split; [done|]. split; [done|].
  intros Hserve. unfold list_submissions, bind, get_state. rewrite Hl.
  assert (blobId <$> (record_of <$> rs) = stored_blobId <$> rs) as Hids.
  { rewrite <- list_fmap_compose. by apply list_fmap_ext. }
  pose proof (fetch_items_serves (record_of <$> rs) texts [] s') as Hf.
  rewrite Hids in Hf. by apply Hf.
Qed.

(** X14.  If [walrus_upload] returned a blob identifier for a text, it
    sent the UTF-8 bytes of the text, and a [walrus_fetch] of that
    identifier that is answered 200 with these bytes returns the text. *)
Theorem upload_then_fetch_round_trip p s blob_id s1 :
  walrus_upload p s = (Ok blob_id, s1) ->
  exists data,
    encode_utf8 p = Some data
    /\ wire s1 = wire s ++ [PUT upload_url data]
    /\ forall resp w,
         requests_get (blob_url blob_id) (world s1) = (Returned resp, w) ->
         status_code resp = 200 ->
         content resp = data ->
         fst (walrus_fetch blob_id s1) = Ok p.
Proof.
  intros H. destruct (walrus_upload_returns _ _ _ _ H)
    as (data & resp & m & He & _ & -> & _).
  exists data. split; [done|]. split; [done|].
  intros resp' w Hg Hst Hc. rewrite (walrus_fetch_ok _ _ _ _ Hg Hst). cbn [fst].
  by rewrite Hc, (decode_encode_utf8 _ _ He).
Qed.

(** X15.  A text [walrus_fetch] returns is the exact reading of the body
    received: the answer had status 200, and encoding the text as UTF-8
    gives the body back, byte for byte. *)
Theorem fetched_text_encodes_to_body blob_id s text s1 :
  walrus_fetch blob_id s = (Ok text, s1) ->
  exists resp,
    fst (requests_get (blob_url blob_id) (world s)) = Returned resp
    /\ status_code resp = 200
    /\ encode_utf8 text = Some (content resp).
Proof.
  intros H. destruct (walrus_fetch_returns _ _ _ _ H) as (resp & w & Hg & Hst & Hd & _).
  exists resp. rewrite Hg. split; [done|]. split; [done|].
  by apply encode_decode_utf8.
Qed.

(** X16.  Whatever requests the process has served since start-up, every
    HTTP request it has sent is a PUT to the publisher URL
    /v1/blobs?epochs=1&permanent=true or a GET of an aggregator URL
    /v1/blobs/<blob id>. *)
Theorem reachable_only_calls_walrus s :
  reachable s -> Forall is_walrus_call (wire s).
Proof.
  induction 1 as [w|r s _ IH]; [constructor|].
  destruct (serve_wire r s) as (new & -> & Hnew). by apply Forall_app.
Qed.

(** X17.  Every [HTTPException] that leaves a handler is the 404
    "form not found" or a 500 with one of the six messages of the two
    Walrus helpers. *)
Theorem handler_http_exceptions r s c detail :
  raised r s = Some (HTTPException c detail) ->
  (c = 404 /\ detail = "form not found"%string)
  \/ (c = 500 /\ store_related (HTTPException c detail)).
Proof.
  assert (forall e, upload_exn e -> e = HTTPException c detail ->
                    c = 500 /\ store_related (HTTPException c detail)) as Hup.
  { unfold upload_exn. intros e He ->. destruct He as [[[|cls] He]|He]; [done..|].
    repeat destruct He as [He|He]; try discriminate;
      injection He as -> ->; (split; [done|]); unfold store_related; cbn; tauto. }
  assert (forall e, fetch_exn e -> e = HTTPException c detail ->
                    c = 500 /\ store_related (HTTPException c detail)) as Hfe.
  { unfold fetch_exn. intros e He ->. destruct He as [[[|cls] He]|He]; [done..|].
    repeat destruct He as [He|He]; try discriminate;
      injection He as -> ->; (split; [done|]); unfold store_related; cbn; tauto. }
  destruct r as [|data|f d|f|f]; cbn [raised].
  - done.
  - pose proof (create_form_runs data s) as H.
    destruct (token_bytes 16 (world s)) as [bs w]. cbn zeta in H. by rewrite H.
  - destruct (submit f d s) as [[r|e] s'] eqn:Hs; [done|]. cbn. intros [= ->].
    apply submit_raises in Hs as [[_ He]|[_ [He|[_ He]]]].
    + left. by injection He as -> ->.
    + right. by eapply Hup.
    + done.
  - unfold list_submissions, bind, get_state.
    destruct (submissions s !! f) as [items|].
    + pose proof (fetch_items_trace items [] s) as Ht.
      destruct (fetch_items items [] s) as [[es|e] s']; [done|].
      cbn. intros [= ->]. right. destruct Ht as [He _]. by eapply Hfe.
    + cbn. intros [= -> ->]. by left.
  - unfold get_form, bind, get_state.
    destruct (forms s !! f); [done|]. cbn. intros [= -> ->]. by left.
Qed.

End Further.

(* ===================================================================== *)
(** * The further properties at concrete inputs *)
(* ===================================================================== *)

(** X1 on an upload answered with the alreadyCertified variant. *)
Lemma walrus_upload_returns_only_a_variant_witness :
  exists data resp m,
    encode_utf8 (py "hello") = Some data
    /\ fst (@requests_put scripted upload_url data
              (world (one_form [ok_json (JDict (certified_body (py "b1")))])))
       = Returned resp
    /\ wire (snd (walrus_upload (py "hello")
                    (one_form [ok_json (JDict (certified_body (py "b1")))])))
       = wire (one_form [ok_json (JDict (certified_body (py "b1")))])
         ++ [PUT upload_url data]
    /\ status_code resp = 200
    /\ json_body resp = Some (JDict m)
    /\ (at_path (JDict m) created_path = Some (JStr (py "b1"))
        \/ (m !! py "newlyCreated" = None
            /\ at_path (JDict m) certified_path = Some (JStr (py "b1")))).
Proof.
  apply (@walrus_upload_returns_only_a_variant scripted (py "hello")
           (one_form [ok_json (JDict (certified_body (py "b1")))])
           (JStr (py "b1"))).
  run.
Defined.

(** X3 on three bodies: [null]; the array [[]], in which neither name
    occurs; and, on a UTF-8 output, a string that is a lone surrogate,
    which line 71 cannot print. *)
Lemma walrus_upload_non_object_body_witness :
  fst (walrus_upload (py "hello") (one_form [ok_json JNull])) = Raise TypeError
  /\ fst (walrus_upload (py "hello") (one_form [ok_json (JList [])]))
     = Raise (HTTPException 500 "walrus upload missing blobId")
  /\ fst (walrus_upload (py "hello") (one_form_terminal [ok_json (JStr [55296])]))
     = Raise UnicodeEncodeError.
Proof.
  split; [|split].
  - apply (@walrus_upload_non_object_body scripted (py "hello")
             (one_form [ok_json JNull]) hello_bytes (Response 200 [] (Some JNull))
             (Script [] []) JNull); try run.
    intros m. discriminate.
  - apply (@walrus_upload_non_object_body scripted (py "hello")
             (one_form [ok_json (JList [])]) hello_bytes
             (Response 200 [] (Some (JList []))) (Script [] []) (JList [])); try run.
    intros m. discriminate.
  - apply (@walrus_upload_non_object_body scripted_terminal (py "hello")
             (one_form_terminal [ok_json (JStr [55296])]) hello_bytes
             (Response 200 [] (Some (JStr [55296]))) (Script [] []) (JStr [55296]));
      try run.
    intros m. discriminate.
Defined.

(** X4 on an object with an empty "newlyCreated" and a well-formed
    "alreadyCertified". *)
Lemma walrus_upload_never_falls_back_witness :
  fst (walrus_upload (py "hello") (one_form [ok_json (JDict both_keys_body)]))
  = Raise TypeError
  \/ fst (walrus_upload (py "hello") (one_form [ok_json (JDict both_keys_body)]))
     = Raise (KeyError (py "blobObject"))
  \/ fst (walrus_upload (py "hello") (one_form [ok_json (JDict both_keys_body)]))
     = Raise (KeyError (py "blobId")).
Proof.
  apply (@walrus_upload_never_falls_back scripted (py "hello")
           (one_form [ok_json (JDict both_keys_body)]) hello_bytes
           (Response 200 [] (Some (JDict both_keys_body))) (Script [] [])
           both_keys_body (JDict ∅)); run.
Defined.

(** X5 on a state with the form "f1", for the identifier "f2". *)
Lemma not_found_iff_unknown_witness :
  ((exists detail, fst (submit (py "f2") hello (one_form []))
                   = Raise (HTTPException 404 detail))
   <-> forms (one_form []) !! py "f2" = None)
  /\ ((exists detail, fst (list_submissions (py "f2") (one_form []))
                      = Raise (HTTPException 404 detail))
      <-> forms (one_form []) !! py "f2" = None)
  /\ ((exists detail, fst (get_form (py "f2") (one_form []))
                      = Raise (HTTPException 404 detail))
      <-> forms (one_form []) !! py "f2" = None).
Proof.
  apply (@not_found_iff_unknown scripted (py "f2") hello (one_form [])). run.
Defined.

(** X7 on a form with three records when the second fetch is answered
    500: two GETs are sent, the third record is not asked for. *)
Lemma list_submissions_trace_witness :
  let s := three_records [ok_raw hello_bytes; Returned (Response 500 [] None);
                          ok_raw hello_bytes] in
  fst (list_submissions (py "f1") s) = Raise (HTTPException 500 "walrus fetch failed")
  /\ wire (snd (list_submissions (py "f1") s))
     = [GET (@blob_url scripted (JStr (py "b1"))); GET (@blob_url scripted (JStr (py "b2")))].
Proof.
  intros s.
  destruct (@list_submissions_trace scripted (py "f1") s
              [{| blobId := JStr (py "b1") |}; {| blobId := JStr (py "b2") |};
               {| blobId := JStr (py "b3") |}] ltac:(run))
    as (_ & _ & Htrace).
  assert (fst (list_submissions (py "f1") s)
          = Raise (HTTPException 500 "walrus fetch failed")) as Hr by run.
  rewrite Hr in Htrace. destruct Htrace as (_ & _ & ->). split; [done|]. run.
Defined.

(** X8 on the depot at start-up. *)
Lemma create_form_frame_witness :
  forms (snd (@create_form depot_world other_request depot_ready)) !! depot_form_id
  = Some demo_form.
Proof.
  destruct (@create_form_frame depot_world other_request depot_ready)
    as (resp & Hresp & Hid & _ & Hothers).
  destruct (Hothers depot_form_id) as [-> _]; [|run].
  rewrite Hid. vm_compute. discriminate.
Defined.

(** X10 on the depot, whose second token differs from the first. *)
Lemma create_form_twice_witness :
  fst (@get_form depot_world depot_form_id
         (snd (@create_form depot_world other_request
                 (snd (@create_form depot_world demo_request depot_start)))))
  = Ok demo_form.
Proof.
  apply (proj1 (@create_form_twice depot_world demo_request other_request depot_start)).
  vm_compute. discriminate.
Defined.

(** X11 on a submit that appends. *)
Lemma serve_never_forgets_witness :
  is_Some (forms (serve (Submit (py "f1") hello)
                    (one_form [ok_json (JDict (created_body (py "b1")))])) !! py "f1").
Proof.
  apply (proj1 (@serve_never_forgets scripted (Submit (py "f1") hello)
                  (one_form [ok_json (JDict (created_body (py "b1")))]) (py "f1"))).
  eexists. run.
Defined.

(** X12 on a submit followed by a lookup. *)
Lemma ledger_append_only_witness :
  exists more,
    submissions (serve_all [Submit (py "f1") hello; GetForm (py "f1")]
                   (two_records [ok_json (JDict (created_body (py "b3")))])) !! py "f1"
    = Some ([{| blobId := JStr (py "b1") |}; {| blobId := JStr (py "b2") |}] ++ more)
    /\ (length more <= 2)%nat.
Proof.
  apply (@ledger_append_only scripted [Submit (py "f1") hello; GetForm (py "f1")]
           (two_records [ok_json (JDict (created_body (py "b3")))]) (py "f1")
           [{| blobId := JStr (py "b1") |}; {| blobId := JStr (py "b2") |}]).
  - repeat constructor.
  - run.
Defined.

(** X13 on the depot: three texts, the first and the last equal. *)
Lemma submit_each_then_list_witness :
  let texts := [py "hello"; [233; 8364; 128512]; py "hello"] in
  let s' := snd (@submit_each depot_world depot_form_id texts depot_ready) in
  fst (@list_submissions depot_world depot_form_id s')
  = Ok [ {| entry_blobId := JStr (hexlify hello_bytes); entry_encrypted := py "hello" |};
         {| entry_blobId := JStr (py "c3a9e282acf09f9880");
            entry_encrypted := [233; 8364; 128512] |};
         {| entry_blobId := JStr (hexlify hello_bytes); entry_encrypted := py "hello" |} ].
Proof.
  intros texts s'.
  destruct (@submit_each_then_list depot_world depot_form_id texts depot_ready
              [ {| status := py "stored"; stored_blobId := JStr (hexlify hello_bytes) |};
                {| status := py "stored"; stored_blobId := JStr (py "c3a9e282acf09f9880") |};
                {| status := py "stored"; stored_blobId := JStr (hexlify hello_bytes) |} ]
              s' ltac:(run) ltac:(run))
    as (_ & _ & Hlist).
  apply Hlist. run.
Defined.

(** X14 on the depot. *)
Lemma upload_then_fetch_round_trip_witness :
  fst (@walrus_fetch depot_world (JStr (hexlify hello_bytes))
         (snd (@walrus_upload depot_world (py "hello") depot_ready)))
  = Ok (py "hello").
Proof.
  destruct (@upload_then_fetch_round_trip depot_world (py "hello") depot_ready
              (JStr (hexlify hello_bytes))
              (snd (@walrus_upload depot_world (py "hello") depot_ready))
              ltac:(run))
    as (data & He & _ & Hfetch).
  vm_compute in He. injection He as <-.
  apply (Hfetch (Response 200 hello_bytes None)
           (world (snd (@walrus_upload depot_world (py "hello") depot_ready)))); run.
Defined.

(** X15 on a fetch answered with the bytes of "hello". *)
Lemma fetched_text_encodes_to_body_witness :
  exists resp,
    fst (@requests_get scripted (@blob_url scripted (JStr (py "b1")))
           (world (one_form [ok_raw hello_bytes])))
    = Returned resp
    /\ status_code resp = 200
    /\ encode_utf8 (py "hello") = Some (content resp).
Proof.
  apply (@fetched_text_encodes_to_body scripted (JStr (py "b1"))
           (one_form [ok_raw hello_bytes]) (py "hello")
           (snd (walrus_fetch (JStr (py "b1")) (one_form [ok_raw hello_bytes])))).
  run.
Defined.

(** X16 on the depot after a creation, a submit and a listing. *)
Lemma reachable_only_calls_walrus_witness :
  Forall (@is_walrus_call depot_world)
    (wire (serve (ListSubmissions depot_form_id)
             (serve (Submit depot_form_id hello)
                (serve (CreateForm demo_request) (@init depot_world (Depot ∅ 7)))))).
Proof.
  apply (@reachable_only_calls_walrus depot_world). repeat constructor.
Defined.

(** X17 on a submit whose upload is answered 500. *)
Lemma handler_http_exceptions_witness :
  (500 = 404 /\ "walrus upload failed"%string = "form not found"%string)
  \/ (500 = 500 /\ store_related (HTTPException 500 "walrus upload failed")).
Proof.
  apply (@handler_http_exceptions scripted (Submit (py "f1") hello)
           (one_form [Returned (Response 500 [] None)])).
  run.
Defined.
